(** * Security incident dashboard: filtering, KPIs, summary and export

    A shallow embedding of [app.py], the Streamlit script that loads a table
    of security incidents with pandas, narrows it with four widgets, shows
    four KPIs and two charts, exports the selection as CSV and prints a
    one-line conclusion.

    The script is straight-line Python over pandas objects.  The embedding
    keeps the names of the script's variables and gives each pandas or
    Python operation the script calls a function of the same name:

    - [Py]      Python text, numbers and exceptions;
    - [Pandas]  cells, frames and the pandas calls of the script;
    - [Csv]     [to_csv], [read_csv] and [to_datetime];
    - [App]     the script itself, section by section;
    - [Demo]    a sample table and some settings of the widgets;
    - [Spec]    the predicates the statements are written with.

    Text is ASCII ([str.lower] and [str.encode] are the ASCII ones), and
    numbers with a fractional part are exact decimals: the rounding of
    binary floating point is not part of the model. *)

From Stdlib Require Import List String Ascii ZArith QArith Qround Qabs Bool Lia Arith.
From Stdlib Require Import DecimalString.
Import ListNotations.

Open Scope string_scope.

(** ** Python text, numbers, exceptions *)

Module Py.

(** Exceptions the script can run into. *)
Inductive exn :=
| KeyError (key : string)
| TypeError
| ValueError
| ZeroDivisionError
| ParserError
| EmptyDataError.

Inductive result (A : Type) :=
| Ok (a : A)
| Raise (e : exn).
Arguments Ok {A} a.
Arguments Raise {A} e.

Definition bind {A B} (r : result A) (k : A -> result B) : result B :=
  match r with
  | Ok a => k a
  | Raise e => Raise e
  end.

(** [str.lower] on ASCII text. *)
Definition lower_char (c : ascii) : ascii :=
  let n := nat_of_ascii c in
  if ((65 <=? n) && (n <=? 90))%nat then ascii_of_nat (n + 32) else c.

Fixpoint lower (s : string) : string :=
  match s with
  | EmptyString => EmptyString
  | String c t => String (lower_char c) (lower t)
  end.

(** [q in s]: [q] occurs in [s] as a substring. *)
Fixpoint contains (q s : string) : bool :=
  prefix q s ||
  match s with
  | EmptyString => false
  | String _ t => contains q t
  end.

(** [c in s] for one character. *)
Fixpoint has_char (c : ascii) (s : string) : bool :=
  match s with
  | EmptyString => false
  | String d t => Ascii.eqb c d || has_char c t
  end.

(** Truth value of a string: non-empty. *)
Definition truthy (s : string) : bool :=
  match s with
  | EmptyString => false
  | String _ _ => true
  end.

Fixpoint spaces (n : nat) : string :=
  match n with
  | O => EmptyString
  | S k => String " " (spaces k)
  end.

Definition ljust (s : string) (w : nat) : string := s ++ spaces (w - String.length s).
Definition rjust (s : string) (w : nat) : string := spaces (w - String.length s) ++ s.

Definition join (sep : string) (l : list string) : string := concat sep l.

(** [str(n)] for an integer. *)
Definition str_int (z : Z) : string := NilEmpty.string_of_int (Z.to_int z).

(** [n] written with at least [w] digits, as the format [%0wd] does
    ([n] is not negative). *)
Definition zfill (w : nat) (n : Z) : string :=
  let d := str_int n in
  append (String.concat "" (repeat "0" (w - String.length d))) d.

(** A number with a fractional part: [mant / 10 ^ scale]. *)
Record Dec := mkDec { mant : Z; scale : nat }.

Definition pow10 (n : nat) : Z := 10 ^ Z.of_nat n.

Definition Dec_toQ (d : Dec) : Q :=
  Qmake (mant d) (Z.to_pos (pow10 (scale d))).

Definition Dec_eqb (a b : Dec) : bool :=
  (mant a * pow10 (scale b) =? mant b * pow10 (scale a))%Z.

Definition Dec_of_Z (z : Z) : Dec := mkDec z 0.

(** Trailing zeros of the fraction are not written. *)
Fixpoint strip_zeros (m : Z) (s : nat) : Z * nat :=
  match s with
  | O => (m, O)
  | S k => if (m mod 10 =? 0)%Z then strip_zeros (m / 10) k else (m, s)
  end.

(** Digits of a non-negative decimal: integer part, a point, and the
    fraction without trailing zeros but with at least one digit. *)
Definition digits_dec (m : Z) (s : nat) : string :=
  let (m', s') := strip_zeros m s in
  str_int (m' / pow10 s') ++ "." ++
  match s' with
  | O => "0"
  | S _ => zfill s' (m' mod pow10 s')
  end.

(** [repr(x)] of a float, for values Python prints in positional
    notation (from 1e-4 up to 1e16 in size). *)
Definition repr_float (d : Dec) : string :=
  (if (mant d <? 0)%Z then "-" else "") ++ digits_dec (Z.abs (mant d)) (scale d).

(** Nearest integer, halves to the even neighbour. *)
Definition round_half_even (x : Q) : Z :=
  let f := Qfloor x in
  match Qcompare (x - inject_Z f) (1 # 2) with
  | Lt => f
  | Gt => (f + 1)%Z
  | Eq => if Z.even f then f else (f + 1)%Z
  end.

(** A float as Python holds it: a number, or [nan]. *)
Inductive float :=
| FNum (q : Q)
| FNan.

(** [f"{x:.1f}"]. *)
Definition format_1f (x : float) : string :=
  match x with
  | FNan => "nan"
  | FNum q =>
      let r := round_half_even (Qabs q * 10) in
      (if Qlt_le_dec q 0 then "-" else "") ++
      str_int (r / 10) ++ "." ++ str_int (r mod 10)
  end.

(** [a / b] on integers: true division, which raises on a zero divisor. *)
Definition truediv (a b : Z) : result Q :=
  if (b =? 0)%Z then Raise ZeroDivisionError
  else Ok (Qmake (a * Z.sgn b) (Z.to_pos (Z.abs b))).

(** [int(x)]: the fraction is cut off, towards zero. *)
Definition int_of (x : Q) : Z := Z.quot (Qnum x) (Zpos (Qden x)).

End Py.

Notation "x <- c1 ;; c2" := (Py.bind c1 (fun x => c2))
  (at level 61, c1 at next level, right associativity).

(** ** Cells, frames and the pandas calls of the script *)

Module Pandas.
Import Py.

(** A [Timestamp], to the second. *)
Record Timestamp := mkTime {
  year : nat; month : nat; day : nat;
  hours : nat; minutes : nat; seconds : nat
}.

(** What a cell of the table can hold once pandas has read it: text, an
    integer, a float, a boolean, a timestamp, or one of the two missing
    values ([NaN], and [NaT] in a column of timestamps). *)
Inductive value :=
| VStr (s : string)
| VInt (z : Z)
| VFloat (d : Dec)
| VBool (b : bool)
| VTime (t : Timestamp)
| VNaN
| VNaT.

(** A row carries its index label, which filtering keeps. *)
Record Row := mkRow { label : nat; cells : list value }.

Record DataFrame := mkFrame { columns : list string; rows : list Row }.

(** [len(df)]. *)
Definition len (f : DataFrame) : Z := Z.of_nat (List.length (rows f)).

Definition isna (v : value) : bool :=
  match v with
  | VNaN | VNaT => true
  | _ => false
  end.

(** Integers, floats and booleans are numbers to Python ([True] is 1). *)
Definition to_num (v : value) : option Dec :=
  match v with
  | VInt z => Some (Dec_of_Z z)
  | VFloat d => Some d
  | VBool b => Some (Dec_of_Z (if b then 1 else 0))
  | _ => None
  end.

Definition time_eqb (a b : Timestamp) : bool :=
  (year a =? year b)%nat && (month a =? month b)%nat && (day a =? day b)%nat &&
  (hours a =? hours b)%nat && (minutes a =? minutes b)%nat &&
  (seconds a =? seconds b)%nat.

(** [a == b] on two cells.  A missing value is equal to nothing, itself
    included. *)
Definition py_eq (a b : value) : bool :=
  match a, b with
  | VStr s, VStr t => String.eqb s t
  | VTime s, VTime t => time_eqb s t
  | _, _ =>
      match to_num a, to_num b with
      | Some x, Some y => Dec_eqb x y
      | _, _ => false
      end
  end.

(** Equality as pandas' hash tables see it ([unique], [isin],
    [value_counts]): [==], and missing values are one key. *)
Definition same_key (a b : value) : bool :=
  py_eq a b || (isna a && isna b).

(** [s.unique()]: the distinct values, in order of first appearance. *)
Fixpoint unique_from (seen l : list value) : list value :=
  match l with
  | [] => []
  | x :: t =>
      if existsb (same_key x) seen then unique_from seen t
      else x :: unique_from (x :: seen) t
  end.

Definition unique (l : list value) : list value := unique_from [] l.

(** [s.isin(values)]. *)
Definition isin (s values : list value) : list bool :=
  map (fun x => existsb (same_key x) values) s.

(** [s == v], cell by cell. *)
Definition eq_scalar (s : list value) (v : value) : list bool :=
  map (fun x => py_eq x v) s.

Fixpoint index_of (c : string) (cols : list string) : option nat :=
  match cols with
  | [] => None
  | d :: t => if String.eqb c d then Some O else option_map S (index_of c t)
  end.

Definition cell_at (i : nat) (r : Row) : value := nth i (cells r) VNaN.

(** [df[c]] for a column name: the column, or [KeyError]. *)
Definition getitem (f : DataFrame) (c : string) : result (list value) :=
  match index_of c (columns f) with
  | Some i => Ok (map (cell_at i) (rows f))
  | None => Raise (KeyError c)
  end.

(** [df[mask]] for a boolean series: the rows whose entry is [True], in
    the frame's order and with their labels. *)
Fixpoint select (m : list bool) (l : list Row) : list Row :=
  match m, l with
  | b :: m', r :: l' => if b then r :: select m' l' else select m' l'
  | _, _ => []
  end.

Definition getitem_mask (f : DataFrame) (m : list bool) : DataFrame :=
  mkFrame (columns f) (select m (rows f)).

(** [s.mean()]: the mean of the cells that are not missing, [nan] when
    there is none.  Text and timestamps are not numbers. *)
Definition numbers (l : list value) : list Q :=
  flat_map (fun v => match to_num v with Some d => [Dec_toQ d] | None => [] end) l.

Definition not_a_number (v : value) : bool :=
  match v with
  | VStr _ | VTime _ | VNaT => true
  | _ => false
  end.

Definition mean (l : list value) : result float :=
  if existsb not_a_number l then Raise TypeError
  else
    match numbers l with
    | [] => Ok FNan
    | x :: xs =>
        Ok (FNum (fold_left Qplus xs x / inject_Z (Z.of_nat (List.length (x :: xs)))))
    end.

(** [s.value_counts()]: the cells that are not missing are counted per
    value, values in order of first appearance, and the counts are put
    in descending order.  The order in which pandas leaves values of the
    same count is taken to be the order in which it counted them, that
    of first appearance. *)
Definition count_of (x : value) (l : list value) : nat :=
  List.length (filter (same_key x) l).

Definition dropna (l : list value) : list value :=
  filter (fun v => negb (isna v)) l.

Definition counts (l : list value) : list (value * nat) :=
  map (fun k => (k, count_of k l)) (unique l).

Fixpoint insert_desc (p : value * nat) (l : list (value * nat)) : list (value * nat) :=
  match l with
  | [] => [p]
  | q :: t => if (snd q <=? snd p)%nat then p :: q :: t else q :: insert_desc p t
  end.

Definition sort_values_desc (l : list (value * nat)) : list (value * nat) :=
  fold_right insert_desc [] l.

Definition value_counts (l : list value) : list (value * nat) :=
  sort_values_desc (counts (dropna l)).

(** [s.idxmax()]: the label of the first entry that holds the maximum;
    [ValueError] on an empty series. *)
Definition better (best q : value * nat) : value * nat :=
  if (snd best <? snd q)%nat then q else best.

Definition idxmax (s : list (value * nat)) : result value :=
  match s with
  | [] => Raise ValueError
  | p :: t => Ok (fst (fold_left better t p))
  end.

(** Order of group keys: numbers by size, text by code point, timestamps
    by date and time; numbers come before text, text before timestamps. *)
Definition time_key (t : Timestamp) : list nat :=
  [year t; month t; day t; hours t; minutes t; seconds t].

Fixpoint lex_leb (a b : list nat) : bool :=
  match a, b with
  | [], _ => true
  | _ :: _, [] => false
  | x :: a', y :: b' => (x <? y)%nat || ((x =? y)%nat && lex_leb a' b')
  end.

Definition rank (v : value) : nat :=
  match v with
  | VInt _ | VFloat _ | VBool _ => 0
  | VStr _ => 1
  | VTime _ => 2
  | VNaN | VNaT => 3
  end.

Definition value_leb (a b : value) : bool :=
  match a, b with
  | VStr s, VStr t => String.leb s t
  | VTime s, VTime t => lex_leb (time_key s) (time_key t)
  | _, _ =>
      match to_num a, to_num b with
      | Some x, Some y => (mant x * pow10 (scale y) <=? mant y * pow10 (scale x))%Z
      | _, _ => (rank a <=? rank b)%nat
      end
  end.

Fixpoint insert_key (x : value) (l : list value) : list value :=
  match l with
  | [] => [x]
  | y :: t => if value_leb x y then x :: y :: t else y :: insert_key x t
  end.

Definition sort_keys (l : list value) : list value := fold_right insert_key [] l.

Fixpoint number_rows (n : nat) (l : list (list value)) : list Row :=
  match l with
  | [] => []
  | c :: t => mkRow n c :: number_rows (S n) t
  end.

(** [df.groupby(c).size().reset_index(name=n)]: one row per value of the
    column that is not missing, keys ascending, with the number of rows
    that hold it. *)
Definition groupby_size (f : DataFrame) (c name : string) : result DataFrame :=
  s <- getitem f c ;;
  let keys := sort_keys (unique (dropna s)) in
  Ok (mkFrame [c; name]
        (number_rows 0 (map (fun k => [k; VInt (Z.of_nat (count_of k s))]) keys))).

(** *** [str(row)]: how pandas prints a row *)

(** [str(t)] for a timestamp: [YYYY-MM-DD HH:MM:SS]. *)
Definition str_date (t : Timestamp) : string :=
  zfill 4 (Z.of_nat (year t)) ++ "-" ++ zfill 2 (Z.of_nat (month t)) ++ "-" ++
  zfill 2 (Z.of_nat (day t)).

Definition str_time (t : Timestamp) : string :=
  str_date t ++ " " ++ zfill 2 (Z.of_nat (hours t)) ++ ":" ++
  zfill 2 (Z.of_nat (minutes t)) ++ ":" ++ zfill 2 (Z.of_nat (seconds t)).

(** [str(v)] for a cell taken out of the table, as an f-string prints it. *)
Definition py_str (v : value) : string :=
  match v with
  | VStr s => s
  | VInt z => str_int z
  | VFloat d => repr_float d
  | VBool b => if b then "True" else "False"
  | VTime t => str_time t
  | VNaN => "nan"
  | VNaT => "NaT"
  end.

(** Tabs and line ends are printed as their escapes. *)
Fixpoint escape (s : string) : string :=
  match s with
  | EmptyString => EmptyString
  | String c t =>
      (if Ascii.eqb c "009" then "\t"
       else if Ascii.eqb c "010" then "\n"
       else if Ascii.eqb c "013" then "\r"
       else String c EmptyString) ++ escape t
  end.

(** A float in a row of mixed types is printed with six decimals and
    without the trailing zeros. *)
Definition str_float6 (d : Dec) : string :=
  (if (mant d <? 0)%Z then "-" else " ") ++
  digits_dec (round_half_even (Qabs (Dec_toQ d) * inject_Z (pow10 6))) 6.

Definition fmt_cell (v : value) : string :=
  match v with
  | VStr s => " " ++ escape s
  | VInt z => " " ++ str_int z
  | VFloat d => str_float6 d
  | VBool b => if b then " True" else " False"
  | VTime t => " " ++ str_time t
  | VNaN => " NaN"
  | VNaT => " NaT"
  end.

Definition max_len (l : list string) : nat :=
  fold_right (fun s m => Nat.max (String.length s) m) 0%nat l.

(** [display.max_colwidth]: a longer value is cut and ends in dots. *)
Definition max_colwidth : nat := 50.

Definition clip (w : nat) (s : string) : string :=
  if (w <? String.length s)%nat then substring 0 (w - 3) s ++ "..." else s.

Definition row_values (cols : list string) (r : Row) : list value :=
  map (fun i => cell_at i r) (seq 0 (List.length cols)).

(** [str(row)] for a row of the frame, which pandas hands to the lambda
    as a series indexed by the column names.  One line per column: the
    name, padded to the longest name and three spaces, then the value,
    aligned to the right; a last line gives the row's label and the type
    of the values, [object] for a row that mixes text with other types. *)
Definition str_row (cols : list string) (r : Row) : string :=
  let footer := "Name: " ++ str_int (Z.of_nat (label r)) ++ ", dtype: object" in
  match cols with
  | [] => "Series([], " ++ footer ++ ")"
  | _ :: _ =>
      let vals := map fmt_cell (row_values cols r) in
      let w := Nat.min (max_len vals) max_colwidth in
      let lw := (max_len cols + 3)%nat in
      let lines := map (fun cv => ljust (fst cv) lw ++ rjust (clip w (snd cv)) w)
                       (combine cols vals) in
      join (String "010" EmptyString) lines ++ String "010" EmptyString ++ footer
  end.

End Pandas.

(** ** CSV: [to_csv], [read_csv], [to_datetime] *)

Module Csv.
Import Py Pandas.

Definition LF : ascii := "010"%char.
Definition CR : ascii := "013"%char.
Definition TAB : ascii := "009"%char.
Definition QUOTE : ascii := "034"%char.
Definition COMMA : ascii := ","%char.

(** *** Writing *)

(** The text of a cell in the export.  Missing values are written as
    nothing; a column of timestamps that are all at midnight is written
    as dates. *)
Definition csv_cell (dates_only : bool) (v : value) : string :=
  match v with
  | VStr s => s
  | VInt z => str_int z
  | VFloat d => repr_float d
  | VBool b => if b then "True" else "False"
  | VTime t => if dates_only then str_date t else str_time t
  | VNaN | VNaT => ""
  end.

Definition at_midnight (v : value) : bool :=
  match v with
  | VTime t => (hours t =? 0)%nat && (minutes t =? 0)%nat && (seconds t =? 0)%nat
  | _ => true
  end.

Definition dates_only (f : DataFrame) (i : nat) : bool :=
  forallb (fun r => at_midnight (cell_at i r)) (rows f).

(** The texts of one record, column by column. *)
Definition csv_fields (f : DataFrame) (r : Row) : list string :=
  map (fun i => csv_cell (dates_only f i) (cell_at i r)) (seq 0 (List.length (columns f))).

(** Python's [csv.writer] with the default dialect and the line end
    pandas passes on POSIX: a field is put between quotes when it holds
    the delimiter, a quote or a character of the line end, and a quote
    inside it is doubled. *)
Definition needs_quotes (s : string) : bool :=
  has_char COMMA s || has_char QUOTE s || has_char LF s.

Fixpoint double_quotes (s : string) : string :=
  match s with
  | EmptyString => EmptyString
  | String c t =>
      if Ascii.eqb c QUOTE then String QUOTE (String QUOTE (double_quotes t))
      else String c (double_quotes t)
  end.

Definition write_field (s : string) : string :=
  if needs_quotes s then String QUOTE (double_quotes s ++ String QUOTE EmptyString)
  else s.

(** A row that is one empty field is written as a pair of quotes. *)
Definition write_row (fields : list string) : string :=
  match fields with
  | [s] =>
      if String.eqb s "" then String QUOTE (String QUOTE EmptyString)
      else write_field s
  | _ => join (String COMMA EmptyString) (map write_field fields)
  end ++ String LF EmptyString.

(** [df.to_csv(index=False)]: the header, then one line per row. *)
Definition to_csv (f : DataFrame) : string :=
  write_row (columns f) ++
  String.concat "" (map (fun r => write_row (csv_fields f r)) (rows f)).

(** [text.encode('utf-8')], on ASCII text. *)
Definition encode (s : string) : list Byte.byte := list_byte_of_string s.
Definition decode (b : list Byte.byte) : string := string_of_list_byte b.

(** *** Reading *)

(** States of pandas' tokenizer. *)
Inductive state :=
| StartRecord
| WhitespaceLine
| EatLF
| StartField
| InField
| InQuoted
| QuoteInQuoted.

Definition push (cur : string) (c : ascii) : string := cur ++ String c EmptyString.

Definition is_blank (c : ascii) : bool := Ascii.eqb c " " || Ascii.eqb c TAB.

(** What one character does to the tokenizer: the next state, the field
    and the record read so far, and the record it completes, if any. *)
Record Step := mkStep {
  next : state;
  field_so_far : string;
  record_so_far : list string;
  completed : option (list string)
}.

Definition in_field (cur : string) (row : list string) (c : ascii) : Step :=
  if Ascii.eqb c LF then mkStep StartRecord "" [] (Some (row ++ [cur])%list)
  else if Ascii.eqb c CR then mkStep EatLF "" [] (Some (row ++ [cur])%list)
  else if Ascii.eqb c COMMA then mkStep StartField "" (row ++ [cur])%list None
  else mkStep InField (push cur c) row None.

Definition start_field (cur : string) (row : list string) (c : ascii) : Step :=
  if Ascii.eqb c QUOTE then mkStep InQuoted cur row None else in_field cur row c.

Definition start_record (cur : string) (row : list string) (c : ascii) : Step :=
  if Ascii.eqb c LF then mkStep StartRecord "" [] None
  else if Ascii.eqb c CR then mkStep EatLF "" [] None
  else if is_blank c then mkStep WhitespaceLine (push "" c) [] None
  else start_field cur row c.

Definition step (st : state) (cur : string) (row : list string) (c : ascii) : Step :=
  match st with
  | StartRecord => start_record cur row c
  | EatLF =>
      if Ascii.eqb c LF then mkStep StartRecord "" [] None else start_record cur row c
  | WhitespaceLine =>
      if Ascii.eqb c LF then mkStep StartRecord "" [] None
      else if Ascii.eqb c CR then mkStep EatLF "" [] None
      else if is_blank c then mkStep WhitespaceLine (push cur c) [] None
      else in_field cur row c
  | StartField => start_field cur row c
  | InField => in_field cur row c
  | InQuoted =>
      if Ascii.eqb c QUOTE then mkStep QuoteInQuoted cur row None
      else mkStep InQuoted (push cur c) row None
  | QuoteInQuoted =>
      if Ascii.eqb c QUOTE then mkStep InQuoted (push cur c) row None
      else in_field cur row c
  end.

(** The tokenizer of [read_csv]: comma-separated fields, one record per
    line; a line ends at a line feed, a carriage return or both; a field
    that starts with a quote runs to the closing quote and may hold
    commas and line ends, a doubled quote standing for one; lines that
    are empty or hold only blanks are skipped.  [cur] is the field and
    [row] the record read so far. *)
Fixpoint tokenize (st : state) (cur : string) (row : list string) (s : string)
  : result (list (list string)) :=
  match s with
  | EmptyString =>
      match st with
      | StartRecord | WhitespaceLine | EatLF => Ok []
      | InQuoted => Raise ParserError
      | StartField | InField | QuoteInQuoted => Ok [(row ++ [cur])%list]
      end
  | String c t =>
      let a := step st cur row c in
      match completed a with
      | None => tokenize (next a) (field_so_far a) (record_so_far a) t
      | Some line =>
          r <- tokenize (next a) (field_so_far a) (record_so_far a) t ;;
          Ok (line :: r)
      end
  end.

(** The lines of a file: the header and the records, as texts. *)
Definition read_table (b : list Byte.byte) : result (list (list string)) :=
  tokenize StartRecord "" [] (decode b).

(** Texts pandas reads as a missing value. *)
Definition na_values : list string :=
  [""; "#N/A"; "#N/A N/A"; "#NA"; "-1.#IND"; "-1.#QNAN"; "-NaN"; "-nan";
   "1.#IND"; "1.#QNAN"; "<NA>"; "N/A"; "NA"; "NULL"; "NaN"; "None"; "n/a";
   "nan"; "null"].

Definition is_na (s : string) : bool := existsb (String.eqb s) na_values.

Definition digit (c : ascii) : option Z :=
  let n := nat_of_ascii c in
  if ((48 <=? n) && (n <=? 57))%nat then Some (Z.of_nat (n - 48)) else None.

(** The number a run of digits stands for, after the digits in [acc]. *)
Fixpoint digits (acc : Z) (s : string) : option Z :=
  match s with
  | EmptyString => Some acc
  | String c t =>
      match digit c with
      | Some d => digits (acc * 10 + d) t
      | None => None
      end
  end.

Fixpoint ltrim (s : string) : string :=
  match s with
  | String c t => if is_blank c then ltrim t else s
  | EmptyString => s
  end.

Fixpoint rtrim (s : string) : string :=
  match s with
  | EmptyString => EmptyString
  | String c t =>
      match rtrim t with
      | EmptyString => if is_blank c then EmptyString else String c EmptyString
      | t' => String c t'
      end
  end.

Definition signed (s : string) : bool * string :=
  match s with
  | String "-" t => (true, t)
  | String "+" t => (false, t)
  | _ => (false, s)
  end.

Definition negate (neg : bool) (z : Z) : Z := if neg then (- z)%Z else z.

(** An integer: blanks, a sign, digits, blanks. *)
Definition parse_int (s : string) : option Z :=
  let (neg, t) := signed (rtrim (ltrim s)) in
  match t with
  | EmptyString => None
  | _ => option_map (negate neg) (digits 0 t)
  end.

Fixpoint split_point (s : string) : string * option string :=
  match s with
  | EmptyString => (EmptyString, None)
  | String c t =>
      if Ascii.eqb c "." then (EmptyString, Some t)
      else let (a, b) := split_point t in (String c a, b)
  end.

(** A float in positional notation: a sign, digits, a point, digits. *)
Definition parse_float (s : string) : option Dec :=
  let (neg, t) := signed (rtrim (ltrim s)) in
  match split_point t with
  | (ip, None) =>
      match ip with
      | EmptyString => None
      | _ => option_map (fun z => mkDec (negate neg z) 0) (digits 0 ip)
      end
  | (ip, Some fp) =>
      match ip, fp with
      | EmptyString, EmptyString => None
      | _, _ =>
          match digits 0 ip with
          | Some z => option_map (fun m => mkDec (negate neg m) (String.length fp)) (digits z fp)
          | None => None
          end
      end
  end.

Definition parse_bool (s : string) : option bool :=
  if existsb (String.eqb s) ["True"; "TRUE"; "true"] then Some true
  else if existsb (String.eqb s) ["False"; "FALSE"; "false"] then Some false
  else None.

Definition all_parse {A} (p : string -> option A) (l : list string) : bool :=
  forallb (fun s => is_na s || match p s with Some _ => true | None => false end) l.

Definition read_as {A} (p : string -> option A) (mk : A -> value) (s : string) : value :=
  if is_na s then VNaN
  else match p s with Some a => mk a | None => VStr s end.

(** The type of a column is settled by all of its texts: integers if all
    are, else floats, else booleans, else text.  A column of integers
    with a missing value is a column of floats. *)
Definition infer_column (l : list string) : list value :=
  if all_parse parse_int l then
    if existsb is_na l then map (read_as parse_int (fun z => VFloat (Dec_of_Z z))) l
    else map (read_as parse_int VInt) l
  else if all_parse parse_float l then map (read_as parse_float VFloat) l
  else if all_parse parse_bool l then map (read_as parse_bool VBool) l
  else map (read_as (fun s => Some s) VStr) l.

Fixpoint pad (n : nat) (l : list string) : list string :=
  match n with
  | O => []
  | S k =>
      match l with
      | [] => EmptyString :: pad k []
      | x :: t => x :: pad k t
      end
  end.

(** The frame of a header and its records: a record with fewer fields
    than the header is filled up with missing values, one with more is
    an error; rows are labelled from 0.  Column names are taken as they
    stand (pandas renames empty and repeated names, which a table it has
    written does not have). *)
Definition build_frame (header : list string) (body : list (list string))
  : result DataFrame :=
  let n := List.length header in
  if existsb (fun l => (n <? List.length l)%nat) body then Raise ParserError
  else
    let body' := map (pad n) body in
    let cols := map (fun j => infer_column (map (fun l => nth j l EmptyString) body'))
                    (seq 0 n) in
    Ok (mkFrame header
          (number_rows 0
             (map (fun i => map (fun c => nth i c VNaN) cols)
                  (seq 0 (List.length body))))).

(** [pd.read_csv(file)]. *)
Definition read_csv (b : list Byte.byte) : result DataFrame :=
  lines <- read_table b ;;
  match lines with
  | [] => Raise EmptyDataError
  | header :: body => build_frame header body
  end.

(** *** [pd.to_datetime] *)

Definition leap (y : nat) : bool :=
  ((y mod 4 =? 0) && (negb (y mod 100 =? 0) || (y mod 400 =? 0)))%nat.

Definition days_in (y m : nat) : nat :=
  match m with
  | 2%nat => if leap y then 29%nat else 28%nat
  | 4%nat | 6%nat | 9%nat | 11%nat => 30%nat
  | _ => 31%nat
  end.

Definition number (s : string) : option nat :=
  match s with
  | EmptyString => None
  | _ => option_map Z.to_nat (digits 0 s)
  end.

Definition parse_date (s : string) : option (nat * nat * nat) :=
  if (String.length s =? 10)%nat &&
     String.eqb (substring 4 1 s) "-" && String.eqb (substring 7 1 s) "-" then
    match number (substring 0 4 s), number (substring 5 2 s), number (substring 8 2 s) with
    | Some y, Some m, Some d =>
        if ((1 <=? m) && (m <=? 12) && (1 <=? d) && (d <=? days_in y m))%nat
        then Some (y, m, d) else None
    | _, _, _ => None
    end
  else None.

Definition parse_clock (s : string) : option (nat * nat * nat) :=
  if (String.length s =? 8)%nat &&
     String.eqb (substring 2 1 s) ":" && String.eqb (substring 5 1 s) ":" then
    match number (substring 0 2 s), number (substring 3 2 s), number (substring 6 2 s) with
    | Some h, Some m, Some x =>
        if ((h <? 24) && (m <? 60) && (x <? 60))%nat then Some (h, m, x) else None
    | _, _, _ => None
    end
  else None.

(** A date [YYYY-MM-DD], alone or followed by a blank or a [T] and the
    time [HH:MM:SS]. *)
Definition parse_time (s : string) : option Timestamp :=
  match parse_date (substring 0 10 s) with
  | Some (y, m, d) =>
      if (String.length s =? 10)%nat then Some (mkTime y m d 0 0 0)
      else if String.eqb (substring 10 1 s) " " || String.eqb (substring 10 1 s) "T" then
        match parse_clock (substring 11 (String.length s - 11) s) with
        | Some (h, mi, x) => Some (mkTime y m d h mi x)
        | None => None
        end
      else None
  | None => None
  end.

(** [pd.to_datetime] on one cell.  Text is read in the ISO form, which is
    also the form [to_csv] writes; a missing value becomes [NaT]; text
    that is not a date raises.  Numbers, which pandas would count as
    nanoseconds since 1970, are outside the model and raise as well. *)
Definition to_datetime (v : value) : result value :=
  match v with
  | VStr s =>
      match parse_time s with
      | Some t => Ok (VTime t)
      | None => Raise ValueError
      end
  | VTime t => Ok (VTime t)
  | VNaN | VNaT => Ok VNaT
  | _ => Raise ValueError
  end.

Fixpoint set_nth (i : nat) (v : value) (l : list value) : list value :=
  match i, l with
  | O, _ :: t => v :: t
  | S k, x :: t => x :: set_nth k v t
  | _, [] => []
  end.

Fixpoint map_result {A B} (f : A -> result B) (l : list A) : result (list B) :=
  match l with
  | [] => Ok []
  | x :: t => y <- f x ;; ys <- map_result f t ;; Ok (y :: ys)
  end.

(** [df[c] = pd.to_datetime(df[c])]. *)
Definition to_datetime_column (f : DataFrame) (c : string) : result DataFrame :=
  match index_of c (columns f) with
  | None => Raise (KeyError c)
  | Some i =>
      rs <- map_result (fun r => v <- to_datetime (cell_at i r) ;;
                                 Ok (mkRow (label r) (set_nth i v (cells r))))
                       (rows f) ;;
      Ok (mkFrame (columns f) rs)
  end.

End Csv.

(** ** The script *)

Module App.
Import Py Pandas Csv.

(** *** 3. Data loading *)

(** [load_data()]: the file is read and its [timestamp] column parsed;
    whatever goes wrong, the function returns [None].  [file] is the
    content of [dataset2_threat_detection.csv], if there is such a file. *)
Definition load_data (file : option (list Byte.byte)) : option DataFrame :=
  match file with
  | None => None
  | Some b =>
      match (df <- read_csv b ;; to_datetime_column df "timestamp") with
      | Ok df => Some df
      | Raise _ => None
      end
  end.

(** The columns the script reads by name. *)
Definition required : list string :=
  ["timestamp"; "date"; "hour"; "severity"; "affected_system"; "threat_type";
   "confidence_score"; "response_time_minutes"; "is_resolved"].

Definition has_required (df : DataFrame) : bool :=
  forallb (fun c => existsb (String.eqb c) (columns df)) required.

(** *** Filter widgets *)

(** The three choices of the [Resolution] radio. *)
Inductive Resolution := All | Resolved | Pending.

(** What the four widgets return in one run of the script. *)
Record Criteria := mkCriteria {
  severity_choice : list value;
  system_choice : value;
  status_choice : Resolution;
  search_query : string
}.

Definition all_systems : value := VStr "All Systems".

(** The options the first two widgets are built with. *)
Definition severity_options (df : DataFrame) : result (list value) :=
  s <- getitem df "severity" ;; Ok (unique s).

Definition system_options (df : DataFrame) : result (list value) :=
  s <- getitem df "affected_system" ;; Ok (all_systems :: unique s).

(** The widgets before the user touches them: every severity, the first
    system option, [All], and an empty search box. *)
Definition default_criteria (df : DataFrame) : result Criteria :=
  sev <- severity_options df ;;
  Ok (mkCriteria sev all_systems All "").

(** *** Filtering logic *)

(** [filt_df.apply(lambda row: search_query.lower() in str(row).lower(), axis=1)]
    on a frame that has rows. *)
Definition search_mask (search_query : string) (filt_df : DataFrame) : list bool :=
  map (fun row => contains (lower search_query) (lower (str_row (columns filt_df) row)))
      (rows filt_df).

(** [filt_df[filt_df.apply(..., axis=1)]].  On a frame without rows
    [apply] has no row to call the lambda on and returns an empty series
    of floats instead of a mask; indexing with it selects columns by
    name, and none is named. *)
Definition search (search_query : string) (filt_df : DataFrame) : DataFrame :=
  match rows filt_df with
  | [] => mkFrame [] []
  | _ :: _ => getitem_mask filt_df (search_mask search_query filt_df)
  end.

Definition by_system (c : Criteria) (filt_df : DataFrame) : result DataFrame :=
  if negb (py_eq (system_choice c) all_systems) then
    s <- getitem filt_df "affected_system" ;;
    Ok (getitem_mask filt_df (eq_scalar s (system_choice c)))
  else Ok filt_df.

Definition by_status (c : Criteria) (filt_df : DataFrame) : result DataFrame :=
  match status_choice c with
  | Resolved =>
      s <- getitem filt_df "is_resolved" ;;
      Ok (getitem_mask filt_df (eq_scalar s (VBool true)))
  | Pending =>
      s <- getitem filt_df "is_resolved" ;;
      Ok (getitem_mask filt_df (eq_scalar s (VBool false)))
  | All => Ok filt_df
  end.

Definition by_search (c : Criteria) (filt_df : DataFrame) : DataFrame :=
  if truthy (search_query c) then search (search_query c) filt_df else filt_df.

(** Lines 66 to 76: [filt_df] after the four steps. *)
Definition filtering (df : DataFrame) (c : Criteria) : result DataFrame :=
  s <- getitem df "severity" ;;
  let filt_df := getitem_mask df (isin s (severity_choice c)) in
  filt_df <- by_system c filt_df ;;
  filt_df <- by_status c filt_df ;;
  Ok (by_search c filt_df).

(** *** KPI section *)

(** [len(df) / len(df['date'].unique()) if len(df['date'].unique()) > 0 else 0]. *)
Definition avg_count (df : DataFrame) : result Q :=
  d <- getitem df "date" ;;
  if (Z.of_nat (List.length (unique d)) >? 0)%Z then
    d <- getitem df "date" ;;
    truediv (len df) (Z.of_nat (List.length (unique d)))
  else Ok 0.

Definition current_count (filt_df : DataFrame) : Z := len filt_df.

(** [current_count - int(avg_count)], the number in the delta of the
    first metric. *)
Definition delta (df filt_df : DataFrame) : result Z :=
  a <- avg_count df ;; Ok (current_count filt_df - int_of a)%Z.

(** [len(filt_df[filt_df['severity'] == 'Critical'])]. *)
Definition critical_points (filt_df : DataFrame) : result Z :=
  s <- getitem filt_df "severity" ;;
  Ok (len (getitem_mask filt_df (eq_scalar s (VStr "Critical")))).

(** [f"{filt_df['confidence_score'].mean():.1f}%"]. *)
Definition avg_confidence (filt_df : DataFrame) : result string :=
  s <- getitem filt_df "confidence_score" ;;
  m <- mean s ;;
  Ok (format_1f m ++ "%").

(** [f"{filt_df['response_time_minutes'].mean():.1f}m"]. *)
Definition avg_mitigation (filt_df : DataFrame) : result string :=
  s <- getitem filt_df "response_time_minutes" ;;
  m <- mean s ;;
  Ok (format_1f m ++ "m").

(** *** What the page shows *)

Inductive Element :=
| Metric (label value : string) (delta : option string)
| Pie (names : list value)
| Area (data : DataFrame) (x y : string)
| DownloadButton (data : list Byte.byte) (file_name mime : string)
| Table (data : DataFrame)
| Info (text : string)
| Warning (text : string)
| Error (text : string).

(** *** Summary section *)

Definition no_match : string :=
  "No incidents match the selected filters. System appears clear.".

Definition automated_summary (top_threat : string) : string :=
  "**Automated Summary:** The primary threat vector currently identified is **" ++
  top_threat ++
  "**. We recommend immediate audit of logs associated with this activity.".

(** [filt_df['threat_type'].value_counts().idxmax()]. *)
Definition top_threat (filt_df : DataFrame) : result value :=
  s <- getitem filt_df "threat_type" ;; idxmax (value_counts s).

(** Lines 134 to 138. *)
Definition summary (filt_df : DataFrame) : result Element :=
  if (len filt_df >? 0)%Z then
    t <- top_threat filt_df ;; Ok (Info (automated_summary (py_str t)))
  else Ok (Warning no_match).

(** *** Export *)

(** [filt_df.to_csv(index=False).encode('utf-8')]. *)
Definition csv (filt_df : DataFrame) : list Byte.byte := encode (to_csv filt_df).

(** *** One run of the script *)

(** What lives from one run to the next: the result [st.cache_data] keeps
    of [load_data], once it has been called, and the page drawn so far.
    The markup, titles and the footer of the page carry no data and are
    left out. *)
Record Session := mkSession {
  cache : option (option DataFrame);
  page : list Element
}.

(** A step of the script: it reads and updates the session, and returns
    a value or raises. *)
Definition Run (A : Type) : Type := Session -> result A * Session.

Definition then_ {A B} (m : Run A) (k : A -> Run B) : Run B :=
  fun s =>
    match m s with
    | (Ok a, s') => k a s'
    | (Raise e, s') => (Raise e, s')
    end.

(** A pandas or Python computation inside a run. *)
Definition eval {A} (r : result A) : Run A := fun s => (r, s).

(** [st.metric], [st.plotly_chart], ...: one more element on the page. *)
Definition show (e : Element) : Run unit :=
  fun s => (Ok tt, mkSession (cache s) (page s ++ [e])%list).

(** [load_data()] under [@st.cache_data]: computed on the first call,
    taken from the cache afterwards. *)
Definition cached_load_data (file : option (list Byte.byte)) : Run (option DataFrame) :=
  fun s =>
    match cache s with
    | Some df => (Ok df, s)
    | None => let df := load_data file in (Ok df, mkSession (Some df) (page s))
    end.

Notation "x <~ m ; k" := (then_ m (fun x => k))
  (at level 62, m at next level, right associativity).
Notation "m ;; k" := (then_ m (fun _ => k))
  (at level 62, right associativity).

(** The body of [if df is not None:], with the values the widgets return
    in this run. *)
Definition dashboard (df : DataFrame) (c : Criteria) : Run unit :=
  _ <~ eval (severity_options df) ;
  _ <~ eval (system_options df) ;
  filt_df <~ eval (filtering df c) ;
  d <~ eval (delta df filt_df) ;
  show (Metric "Selected Events" (str_int (current_count filt_df))
               (Some (str_int d ++ " vs Avg"))) ;;
  n <~ eval (critical_points filt_df) ;
  show (Metric "Critical Points" (str_int n) None) ;;
  k3 <~ eval (avg_confidence filt_df) ;
  show (Metric "Avg Confidence" k3 None) ;;
  k4 <~ eval (avg_mitigation filt_df) ;
  show (Metric "Avg Mitigation" k4 None) ;;
  names <~ eval (getitem filt_df "threat_type") ;
  show (Pie names) ;;
  line_data <~ eval (groupby_size filt_df "hour" "Volume") ;
  show (Area line_data "hour" "Volume") ;;
  show (DownloadButton (csv filt_df) "security_audit_export.csv" "text/csv") ;;
  _ <~ eval (getitem filt_df "confidence_score") ;
  show (Table filt_df) ;;
  conclusion <~ eval (summary filt_df) ;
  show conclusion.

Definition script (file : option (list Byte.byte)) (c : Criteria) : Run unit :=
  df <~ cached_load_data file ;
  match df with
  | Some df => dashboard df c
  | None => show (Error "Please ensure 'security_logs.csv' is in the current directory.")
  end.

End App.

(** ** A sample table *)

Module Demo.
Import Py Pandas Csv App.

Definition nl : string := String LF EmptyString.

(** Ten incidents on two days, with one more column, [host]. *)
Definition demo_file : string :=
  String.concat nl
    ["timestamp,date,hour,severity,affected_system,threat_type,confidence_score,response_time_minutes,is_resolved,host";
     "2024-03-01 08:15:00,2024-03-01,8,High,web-01,Phishing,91.5,30,True,007";
     "2024-03-01 09:40:00,2024-03-01,9,Low,db-01,Malware,60,12,False,srv-a";
     "2024-03-01 09:55:00,2024-03-01,9,Critical,web-01,Malware,88.25,45,False,192.168.1.20";
     "2024-03-01 13:05:00,2024-03-01,13,Medium,mail-01,Phishing,70,20,True,srv-b";
     "2024-03-01 22:30:00,2024-03-01,22,Critical,db-01,DDoS,99,5,True,10.0.0.7";
     "2024-03-02 01:10:00,2024-03-02,1,Low,web-01,Phishing,55.5,15,True,srv-a";
     "2024-03-02 08:00:00,2024-03-02,8,High,mail-01,Malware,80,25,False,192.168.1.21";
     "2024-03-02 11:45:00,2024-03-02,11,Critical,web-01,DDoS,97,8,False,srv-c";
     "2024-03-02 16:20:00,2024-03-02,16,Medium,db-01,Ransomware,75,60,True,srv-b";
     "2024-03-02 23:59:59,2024-03-02,23,High,web-01,Ransomware,83,33,False,10.0.0.8";
     ""].

Definition file : option (list Byte.byte) := Some (encode demo_file).

Definition header : list string := required ++ ["host"].

Definition incident (n : nat) (d h mi s : nat) (sev sys threat : string)
           (conf : Dec) (resp : Z) (resolved : bool) (host : string) : Row :=
  mkRow n
    [VTime (mkTime 2024 3 d h mi s);
     VStr ("2024-03-0" ++ str_int (Z.of_nat d)); VInt (Z.of_nat h);
     VStr sev; VStr sys; VStr threat; VFloat conf; VInt resp; VBool resolved;
     VStr host].

(** The table [load_data] makes of the file. *)
Definition demo : DataFrame :=
  mkFrame header
    [incident 0 1 8 15 0 "High" "web-01" "Phishing" (mkDec 915 1) 30 true "007";
     incident 1 1 9 40 0 "Low" "db-01" "Malware" (mkDec 60 0) 12 false "srv-a";
     incident 2 1 9 55 0 "Critical" "web-01" "Malware" (mkDec 8825 2) 45 false "192.168.1.20";
     incident 3 1 13 5 0 "Medium" "mail-01" "Phishing" (mkDec 70 0) 20 true "srv-b";
     incident 4 1 22 30 0 "Critical" "db-01" "DDoS" (mkDec 99 0) 5 true "10.0.0.7";
     incident 5 2 1 10 0 "Low" "web-01" "Phishing" (mkDec 555 1) 15 true "srv-a";
     incident 6 2 8 0 0 "High" "mail-01" "Malware" (mkDec 80 0) 25 false "192.168.1.21";
     incident 7 2 11 45 0 "Critical" "web-01" "DDoS" (mkDec 97 0) 8 false "srv-c";
     incident 8 2 16 20 0 "Medium" "db-01" "Ransomware" (mkDec 75 0) 60 true "srv-b";
     incident 9 2 23 59 59 "High" "web-01" "Ransomware" (mkDec 83 0) 33 false "10.0.0.8"].

Definition severities : list value :=
  [VStr "High"; VStr "Low"; VStr "Critical"; VStr "Medium"].

(** Widgets untouched. *)
Definition untouched : Criteria := mkCriteria severities all_systems All "".

(** Only [Critical] ticked: three incidents. *)
Definition critical_only : Criteria :=
  mkCriteria [VStr "Critical"] all_systems All "".

(** Every severity unticked. *)
Definition nothing_ticked : Criteria := mkCriteria [] all_systems All "".


Definition first_incident : DataFrame :=
  mkFrame header
    [incident 0 1 8 15 0 "High" "web-01" "Phishing" (mkDec 915 1) 30 true "007"].

(** A search for a word that no incident holds. *)
Definition search_dtype : Criteria := mkCriteria severities all_systems All "dtype".

(** A search for part of an address. *)
Definition search_address : Criteria := mkCriteria severities all_systems All "192.168".

(** The session before the first run. *)
Definition fresh : Session := mkSession None [].

End Demo.

(** ** The predicates of the statements *)

Module Spec.
Import Py Pandas Csv App.

(** [l1] is a sub-sequence of [l2]: [l2] with some entries left out. *)
Inductive subseq {A : Type} : list A -> list A -> Prop :=
| subseq_nil : subseq [] []
| subseq_skip x l1 l2 : subseq l1 l2 -> subseq l1 (x :: l2)
| subseq_take x l1 l2 : subseq l1 l2 -> subseq (x :: l1) (x :: l2).

(** The field of a record under a column name. *)
Definition field (df : DataFrame) (name : string) (r : Row) : value :=
  match index_of name (columns df) with
  | Some i => cell_at i r
  | None => VNaN
  end.

(** The three structured predicates of the criteria. *)
Definition severity_ok (df : DataFrame) (c : Criteria) (r : Row) : bool :=
  existsb (same_key (field df "severity" r)) (severity_choice c).

Definition system_ok (df : DataFrame) (c : Criteria) (r : Row) : bool :=
  py_eq (system_choice c) all_systems ||
  py_eq (field df "affected_system" r) (system_choice c).

Definition status_ok (df : DataFrame) (c : Criteria) (r : Row) : bool :=
  match status_choice c with
  | All => true
  | Resolved => py_eq (field df "is_resolved" r) (VBool true)
  | Pending => py_eq (field df "is_resolved" r) (VBool false)
  end.

(** The free-text predicate as the script evaluates it: the query, in
    lower case, occurs in the printed row. *)
Definition search_ok (df : DataFrame) (c : Criteria) (r : Row) : bool :=
  negb (truthy (search_query c)) ||
  contains (lower (search_query c)) (lower (str_row (columns df) r)).

Definition keeps (df : DataFrame) (c : Criteria) (r : Row) : bool :=
  severity_ok df c r && system_ok df c r && status_ok df c r && search_ok df c r.

(** The free-text predicate as the specification words it: the query, in
    lower case, occurs in the rendering of one of the record's fields. *)
Definition in_some_field (df : DataFrame) (q : string) (r : Row) : bool :=
  existsb (fun v => contains (lower q) (lower (py_str v))) (row_values (columns df) r).

(** Position of the first entry of [l] that is [u]. *)
Fixpoint first_pos (u : value) (l : list value) : nat :=
  match l with
  | [] => O
  | x :: t => if same_key u x then O else S (first_pos u t)
  end.

(** [p] is the first entry of [l] that holds the greatest count. *)
Definition first_max (p : value * nat) (l : list (value * nat)) : Prop :=
  exists l1 l2, l = (l1 ++ p :: l2)%list /\
    (forall q, In q l1 -> (snd q < snd p)%nat) /\
    (forall q, In q l2 -> (snd q <= snd p)%nat).





(** No column name and no exported text holds a carriage return. *)
Definition no_cr (f : DataFrame) : bool :=
  forallb (fun s => negb (has_char CR s))
          (columns f ++ List.concat (map (csv_fields f) (rows f)))%list.

(** The number of distinct calendar dates of the snapshot. *)
Definition distinct_dates (df : DataFrame) : Z :=
  Z.of_nat (List.length (unique (map (field df "date") (rows df)))).

(** A character that neither ends a field nor a line. *)
Definition plain (c : ascii) : Prop := c <> COMMA /\ c <> LF /\ c <> CR.

(** A separator: the comma after a field, or the line feed after the last. *)
Definition separator (c : ascii) : Prop := c = COMMA \/ c = LF.

Definition cr_free (l : list string) : Prop :=
  forall s, In s l -> has_char CR s = false.

(** A step that leaves the cached snapshot as it was. *)
Definition keeps_cache {A} (m : Run A) : Prop :=
  forall s, cache (snd (m s)) = cache s.


End Spec.

(** ** More predicates *)

Module Facts.
Import Py Pandas Csv App Spec.

(** The criteria with another query, and with other severities. *)
Definition with_query (c : Criteria) (q : string) : Criteria :=
  mkCriteria (severity_choice c) (system_choice c) (status_choice c) q.

Definition with_severities (c : Criteria) (sev : list value) : Criteria :=
  mkCriteria sev (system_choice c) (status_choice c) (search_query c).

(** The three predicates that are not the search. *)
Definition passes (df : DataFrame) (c : Criteria) (r : Row) : bool :=
  severity_ok df c r && system_ok df c r && status_ok df c r.

(** Text without a tab or a line end, which the printed row shows as it
    is. *)
Definition no_escape (s : string) : bool :=
  negb (has_char TAB s) && negb (has_char LF s) && negb (has_char CR s).

(** Cells the printed row shows as [str] does: text without tabs and line
    ends, integers, booleans and timestamps. *)
Definition printed_as_str (v : value) : bool :=
  match v with
  | VStr s => no_escape s
  | VInt _ | VBool _ | VTime _ => true
  | VFloat _ | VNaN | VNaT => false
  end.

(** pandas prints a series of more than [display.max_rows] entries with
    its middle left out. *)
(** [display.max_rows]: pandas prints a row of more entries in part,
    its first and its last five; [str_row] is the rendering of a row
    that is printed whole. *)
Definition max_rows : nat := 60.

Definition printed_whole (df : DataFrame) : Prop :=
  (List.length (columns df) <= max_rows)%nat.

(** Names that [read_csv] takes as they stand: it renames an empty
    name and a name that occurs twice. *)
Definition plain_names (f : DataFrame) : Prop :=
  NoDup (columns f) /\ ~ In "" (columns f).


(** The numbers of a column of integers. *)
Definition ints (l : list Z) : list value := map VInt l.

(** Sum of a list of counts. *)
Definition total (l : list Z) : Z := fold_right Z.add 0%Z l.

(** The column the area chart is drawn from, and what a row of the
    chart's data holds. *)
Definition hours (f : DataFrame) : list value := map (field f "hour") (rows f).
Definition hour_of (r : Row) : value := cell_at 0 r.
Definition volume_of (r : Row) : Z :=
  match cell_at 1 r with VInt z => z | _ => 0%Z end.

(** The data of the chart of the sample table. *)
Definition demo_line_data : DataFrame :=
  mkFrame ["hour"; "Volume"]
    [mkRow 0 [VInt 1; VInt 1]; mkRow 1 [VInt 8; VInt 2]; mkRow 2 [VInt 9; VInt 2];
     mkRow 3 [VInt 11; VInt 1]; mkRow 4 [VInt 13; VInt 1]; mkRow 5 [VInt 16; VInt 1];
     mkRow 6 [VInt 22; VInt 1]; mkRow 7 [VInt 23; VInt 1]].

(** The two numeric columns hold no text and no timestamp, and no threat
    type is missing. *)
Definition presentable (df : DataFrame) : Prop :=
  forall r, In r (rows df) ->
    not_a_number (field df "confidence_score" r) = false /\
    not_a_number (field df "response_time_minutes" r) = false /\
    isna (field df "threat_type" r) = false.



(** Every row has one cell per column. *)
Definition rectangular (f : DataFrame) : Prop :=
  forall r, In r (rows f) -> List.length (cells r) = List.length (columns f).

(** The rows are labelled 0, 1, 2, ... *)
Definition numbered (f : DataFrame) : Prop :=
  map label (rows f) = seq 0 (List.length (rows f)).


(** A run that ends in an exception, whatever the session. *)
Definition stops {A} (m : Run A) : Prop :=
  forall s, exists e s', m s = (Raise e, s').


End Facts.

(** ** Proofs *)

Import Py Pandas Csv App Spec.

(** *** The model on the sample table *)

Example load_data_demo : load_data Demo.file = Some Demo.demo.
Proof. vm_compute. reflexivity. Qed.

(** The text in which the search looks for the query. *)
Example str_row_first_incident :
  option_map (str_row (columns Demo.demo)) (hd_error (rows Demo.demo)) = Some
"timestamp                2024-03-01 08:15:00
date                              2024-03-01
hour                                       8
severity                                High
affected_system                       web-01
threat_type                         Phishing
confidence_score                        91.5
response_time_minutes                     30
is_resolved                             True
host                                     007
Name: 0, dtype: object".
Proof. vm_compute. reflexivity. Qed.

Example to_csv_first_incident :
  to_csv Demo.first_incident =
"timestamp,date,hour,severity,affected_system,threat_type,confidence_score,response_time_minutes,is_resolved,host
2024-03-01 08:15:00,2024-03-01,8,High,web-01,Phishing,91.5,30,True,007
".
Proof. vm_compute. reflexivity. Qed.

Example page_critical_only :
  firstn 4 (page (snd (script Demo.file Demo.critical_only Demo.fresh))) =
  [Metric "Selected Events" "3" (Some "-2 vs Avg");
   Metric "Critical Points" "3" None;
   Metric "Avg Confidence" "94.8%" None;
   Metric "Avg Mitigation" "19.3m" None].
Proof. vm_compute. reflexivity. Qed.

Example default_criteria_demo : default_criteria Demo.demo = Ok Demo.untouched.
Proof. reflexivity. Qed.

(** The search finds part of an address, whatever the case of the query. *)
Example search_address_demo :
  option_map (fun f => map label (rows f))
             (match filtering Demo.demo Demo.search_address with
              | Ok f => Some f
              | Raise _ => None
              end) = Some [2%nat; 6%nat].
Proof. vm_compute. reflexivity. Qed.

Example value_counts_tie :
  value_counts [VStr "B"; VStr "A"; VNaN; VStr "A"; VStr "B"; VStr "C"] =
  [(VStr "B", 2%nat); (VStr "A", 2%nat); (VStr "C", 1%nat)].
Proof. reflexivity. Qed.

(** *** Masks and sub-sequences *)

Lemma select_map (p : Row -> bool) (l : list Row) :
  select (map p l) l = filter p l.
Proof.
  induction l as [|r l IH]; simpl; [reflexivity|].
  destruct (p r); now rewrite IH.
Qed.

Lemma filter_filter {A} (p q : A -> bool) (l : list A) :
  filter q (filter p l) = filter (fun x => p x && q x) l.
Proof.
  induction l as [|x l IH]; simpl; [reflexivity|].
  destruct (p x); simpl; [destruct (q x)|]; now rewrite IH.
Qed.

Lemma filter_all {A} (p : A -> bool) (l : list A) :
  (forall x, In x l -> p x = true) -> filter p l = l.
Proof.
  induction l as [|x l IH]; simpl; intros H; [reflexivity|].
  rewrite (H x (or_introl eq_refl)), IH; auto.
Qed.

Lemma filter_none {A} (p : A -> bool) (l : list A) :
  (forall x, p x = false) -> filter p l = [].
Proof.
  intros H. induction l as [|x l IH]; simpl; [reflexivity|]. now rewrite H.
Qed.

Lemma subseq_refl {A} (l : list A) : subseq l l.
Proof. induction l; constructor; assumption. Qed.

Lemma subseq_filter {A} (p : A -> bool) (l : list A) : subseq (filter p l) l.
Proof.
  induction l as [|x l IH]; simpl; [constructor|].
  destruct (p x); constructor; assumption.
Qed.

(** *** Columns *)

Lemma index_of_some c cols :
  existsb (String.eqb c) cols = true -> exists i, index_of c cols = Some i.
Proof.
  induction cols as [|d cols IH]; simpl; [discriminate|].
  destruct (String.eqb c d); simpl; [eauto|].
  intros H. destruct (IH H) as [i ->]. simpl. eauto.
Qed.

Lemma has_required_index df c :
  has_required df = true -> In c required -> exists i, index_of c (columns df) = Some i.
Proof.
  unfold has_required. rewrite forallb_forall. intros H Hc.
  apply index_of_some. now apply H.
Qed.

Lemma getitem_field df f c i :
  columns f = columns df -> index_of c (columns df) = Some i ->
  getitem f c = Ok (map (field df c) (rows f)).
Proof.
  intros Hc Hi. unfold getitem, field. now rewrite Hc, Hi.
Qed.

(** Selecting by a condition on a column is filtering the rows by the
    condition on the field. *)
Lemma mask_by_field df f c (p : value -> bool) :
  getitem_mask f (map p (map (field df c) (rows f))) =
  mkFrame (columns f) (filter (fun r => p (field df c r)) (rows f)).
Proof.
  unfold getitem_mask. now rewrite map_map, select_map.
Qed.

Ltac required_column H name i Hi :=
  destruct (has_required_index _ name H) as [i Hi];
  [unfold required; simpl; tauto|].

(** *** The four steps of the filter, one after the other *)

Lemma by_system_rows df c f :
  has_required df = true -> columns f = columns df ->
  by_system c f = Ok (mkFrame (columns df) (filter (system_ok df c) (rows f))).
Proof.
  intros H Hc. unfold by_system, system_ok.
  destruct (py_eq (system_choice c) all_systems) eqn:E; simpl.
  - rewrite filter_all by reflexivity. rewrite <- Hc. now destruct f.
  - required_column H "affected_system" i Hi.
    rewrite (getitem_field df f _ i Hc Hi). simpl.
    unfold eq_scalar. rewrite mask_by_field. now rewrite Hc.
Qed.

Lemma by_status_rows df c f :
  has_required df = true -> columns f = columns df ->
  by_status c f = Ok (mkFrame (columns df) (filter (status_ok df c) (rows f))).
Proof.
  intros H Hc. unfold by_status, status_ok.
  required_column H "is_resolved" i Hi.
  destruct (status_choice c).
  - rewrite filter_all by reflexivity. rewrite <- Hc. now destruct f.
  - rewrite (getitem_field df f _ i Hc Hi). simpl.
    unfold eq_scalar. rewrite mask_by_field. now rewrite Hc.
  - rewrite (getitem_field df f _ i Hc Hi). simpl.
    unfold eq_scalar. rewrite mask_by_field. now rewrite Hc.
Qed.

Lemma by_search_rows df c f :
  columns f = columns df ->
  rows (by_search c f) = filter (search_ok df c) (rows f).
Proof.
  intros Hc. unfold by_search, search_ok.
  destruct (truthy (search_query c)); simpl.
  - unfold search. destruct (rows f) as [|r l] eqn:E; [reflexivity|].
    rewrite <- E. unfold getitem_mask, search_mask. rewrite Hc.
    cbn [rows]. apply select_map.
  - symmetry. now apply filter_all.
Qed.

(** The subset is the records of the snapshot that pass the four
    predicates, in the snapshot's order. *)
Lemma filtering_rows df c :
  has_required df = true ->
  exists filt_df, filtering df c = Ok filt_df /\
                  rows filt_df = filter (keeps df c) (rows df).
Proof.
  intros H. unfold filtering.
  required_column H "severity" i Hi.
  rewrite (getitem_field df df _ i eq_refl Hi). simpl.
  unfold isin. rewrite mask_by_field.
  rewrite (by_system_rows df); [|assumption|reflexivity]. simpl.
  rewrite (by_status_rows df); [|assumption|reflexivity]. simpl.
  eexists. split; [reflexivity|].
  rewrite (by_search_rows df); [|reflexivity]. simpl.
  rewrite !filter_filter. apply filter_ext. intros r.
  unfold keeps, severity_ok. now rewrite !andb_assoc.
Qed.

(** With an empty search box the subset keeps the columns as well. *)
Lemma filtering_no_query df c :
  has_required df = true -> search_query c = "" ->
  filtering df c =
  Ok (mkFrame (columns df)
        (filter (fun r => severity_ok df c r && system_ok df c r && status_ok df c r)
                (rows df))).
Proof.
  intros H Hq. unfold filtering.
  required_column H "severity" i Hi.
  rewrite (getitem_field df df _ i eq_refl Hi). simpl.
  unfold isin. rewrite mask_by_field.
  rewrite (by_system_rows df); [|assumption|reflexivity]. simpl.
  rewrite (by_status_rows df); [|assumption|reflexivity]. simpl.
  unfold by_search. rewrite Hq. simpl.
  rewrite !filter_filter. do 2 f_equal. apply filter_ext. intros r.
  unfold severity_ok. now rewrite !andb_assoc.
Qed.

(** *** Keys *)

Lemma time_eqb_refl t : time_eqb t t = true.
Proof. unfold time_eqb. now rewrite !Nat.eqb_refl. Qed.

Lemma Dec_eqb_refl d : Dec_eqb d d = true.
Proof. unfold Dec_eqb. apply Z.eqb_refl. Qed.

Lemma same_key_refl v : same_key v v = true.
Proof.
  unfold same_key, py_eq.
  destruct v; simpl;
    rewrite ?String.eqb_refl, ?time_eqb_refl, ?Dec_eqb_refl; reflexivity.
Qed.

Lemma unique_from_covers x l : forall seen,
  In x l ->
  existsb (same_key x) seen = true \/ existsb (same_key x) (unique_from seen l) = true.
Proof.
  induction l as [|y l IH]; intros seen Hx; [destruct Hx|].
  simpl. destruct Hx as [->|Hx].
  - destruct (existsb (same_key x) seen) eqn:E; [now left|right].
    simpl. now rewrite same_key_refl.
  - destruct (existsb (same_key y) seen) eqn:E.
    + now apply IH.
    + destruct (IH (y :: seen) Hx) as [H|H].
      * simpl in H. apply orb_true_iff in H. destruct H as [H|H].
        -- right. simpl. now rewrite H.
        -- now left.
      * right. simpl. rewrite H. apply orb_true_r.
Qed.

(** Every value of a series is among its [unique] values. *)
Lemma unique_covers x l : In x l -> existsb (same_key x) (unique l) = true.
Proof.
  intros H. destruct (unique_from_covers x l [] H) as [E|E]; [discriminate|exact E].
Qed.

(** *** Filtering *)

(** An empty search box is no filter: the subset is the records that pass
    the three other predicates. *)
Lemma empty_query_keeps_the_rest df sev sys st :
  has_required df = true ->
  exists filt_df,
    filtering df (mkCriteria sev sys st "") = Ok filt_df /\
    forall r, In r (rows filt_df) <->
              In r (rows df) /\
              severity_ok df (mkCriteria sev sys st "") r = true /\
              system_ok df (mkCriteria sev sys st "") r = true /\
              status_ok df (mkCriteria sev sys st "") r = true.
Proof.
  intros H. rewrite (filtering_no_query df (mkCriteria sev sys st "") H eq_refl).
  eexists. split; [reflexivity|]. intros r. simpl rows.
  rewrite filter_In, !andb_true_iff. tauto.
Qed.

(** C3.  Whatever the system, the resolution and the query are, a filter
    with no severity selected returns a subset without records. *)
Theorem empty_severities_empty_subset (df : DataFrame) (sys : value)
        (st : Resolution) (q : string) :
  has_required df = true ->
  exists filt_df, filtering df (mkCriteria [] sys st q) = Ok filt_df /\
                  rows filt_df = [].
Proof.
  intros H. destruct (filtering_rows df (mkCriteria [] sys st q) H) as [f [Hf Hr]].
  exists f. split; [exact Hf|]. rewrite Hr. now apply filter_none.
Qed.

Lemma empty_severities_empty_subset_witness :
  has_required Demo.demo = true /\
  exists filt_df,
    filtering Demo.demo (mkCriteria [] (VStr "web-01") Pending "192.168") = Ok filt_df /\
    rows filt_df = [].
Proof.
  split; [reflexivity|].
  apply (empty_severities_empty_subset Demo.demo (VStr "web-01") Pending "192.168").
  reflexivity.
Defined.

(** C7.  With the widgets untouched (every severity of the table selected,
    "All Systems", resolution "All", empty search box) the subset is the
    whole snapshot: same columns, same records, same order. *)
Theorem default_criteria_keep_everything (df : DataFrame) :
  has_required df = true ->
  exists c, default_criteria df = Ok c /\ filtering df c = Ok df.
Proof.
  intros H. unfold default_criteria, severity_options.
  required_column H "severity" i Hi.
  rewrite (getitem_field df df _ i eq_refl Hi). simpl.
  eexists. split; [reflexivity|].
  rewrite filtering_no_query by (assumption || reflexivity).
  rewrite filter_all; [now destruct df|].
  intros r Hr. unfold severity_ok, system_ok, status_ok. simpl.
  rewrite andb_true_r, andb_true_r.
  apply unique_covers. now apply in_map.
Qed.

Lemma default_criteria_keep_everything_witness :
  has_required Demo.demo = true /\
  exists c, default_criteria Demo.demo = Ok c /\ filtering Demo.demo c = Ok Demo.demo.
Proof.
  split; [reflexivity|].
  apply (default_criteria_keep_everything Demo.demo). reflexivity.
Defined.

(** C8.  The records of the subset are records of the snapshot, in the
    snapshot's order: the subset's rows are a sub-sequence of the
    snapshot's rows. *)
Theorem filtering_preserves_order (df : DataFrame) (c : Criteria) :
  has_required df = true ->
  exists filt_df, filtering df c = Ok filt_df /\ subseq (rows filt_df) (rows df).
Proof.
  intros H. destruct (filtering_rows df c H) as [f [Hf Hr]].
  exists f. split; [exact Hf|]. rewrite Hr. apply subseq_filter.
Qed.

Lemma filtering_preserves_order_witness :
  has_required Demo.demo = true /\
  exists filt_df, filtering Demo.demo Demo.critical_only = Ok filt_df /\
                  subseq (rows filt_df) (rows Demo.demo).
Proof.
  split; [reflexivity|].
  apply (filtering_preserves_order Demo.demo Demo.critical_only). reflexivity.
Defined.

(** *** KPIs *)



Lemma truediv_pos a n :
  (0 < n)%Z -> exists q, truediv a n = Ok q /\ q == inject_Z a / inject_Z n /\
                         Qnum q = a.
Proof.
  intros Hn. unfold truediv.
  destruct n as [|p|p]; try lia. simpl.
  eexists. split; [reflexivity|]. split.
  - unfold Qeq, Qdiv, Qmult, Qinv, inject_Z. simpl. lia.
  - simpl. lia.
Qed.

(** The snapshot's average per day: defined for every snapshot, and the
    quotient whenever there is a date to divide by. *)
Lemma avg_count_value df :
  has_required df = true ->
  exists a, avg_count df = Ok a /\ (0 <= Qnum a)%Z /\
    (distinct_dates df = 0%Z -> a = 0) /\
    (distinct_dates df <> 0%Z ->
     a == inject_Z (len df) / inject_Z (distinct_dates df) /\
     Qfloor a = (len df / distinct_dates df)%Z).
Proof.
  intros H. unfold avg_count, distinct_dates.
  required_column H "date" i Hi.
  rewrite (getitem_field df df _ i eq_refl Hi). simpl.
  set (n := Z.of_nat (List.length (unique (map (field df "date") (rows df))))).
  destruct (n >? 0)%Z eqn:E.
  - assert (Hn : (0 < n)%Z) by lia.
    destruct (truediv_pos (len df) n Hn) as [q [Hq [Hv Hnum]]].
    exists q. split; [exact Hq|]. split; [rewrite Hnum; unfold len; lia|].
    split; [lia|]. intros _. split; [exact Hv|].
    rewrite Hv. unfold Qdiv, Qfloor, Qmult, Qinv, inject_Z.
    destruct n as [|p|p]; try lia. simpl. now rewrite Z.mul_1_r.
  - exists 0. split; [reflexivity|]. split; [simpl; lia|].
    split; [reflexivity|]. intros Hn. unfold n in *. lia.
Qed.

Lemma int_of_floor a : (0 <= Qnum a)%Z -> int_of a = Qfloor a.
Proof.
  intros H. unfold int_of. destruct a as [n d]. simpl in *.
  apply Z.quot_div_nonneg; lia.
Qed.



(** C5.  The delta of the first KPI is the number of selected records
    minus the integer part of the baseline.  A snapshot of 10 records on 2
    dates and a subset of 3 records give a count of 3 and a delta of -2. *)
Theorem delta_is_count_minus_floor (df : DataFrame) (c : Criteria) :
  has_required df = true ->
  exists filt_df a d,
    filtering df c = Ok filt_df /\ avg_count df = Ok a /\
    delta df filt_df = Ok d /\
    d = (current_count filt_df - Qfloor a)%Z /\
    current_count filt_df = len filt_df /\
    (len df = 10%Z -> distinct_dates df = 2%Z -> len filt_df = 3%Z ->
     current_count filt_df = 3%Z /\ d = (-2)%Z).
Proof.
  intros H.
  destruct (filtering_rows df c H) as [f [Hf _]].
  destruct (avg_count_value df H) as [a [Ha [Hpos [_ H1]]]].
  exists f, a, (current_count f - Qfloor a)%Z.
  split; [exact Hf|]. split; [exact Ha|]. split.
  - unfold delta. rewrite Ha. simpl. now rewrite int_of_floor.
  - split; [reflexivity|]. split; [reflexivity|].
    intros Hn Hd Hs. unfold current_count. split; [exact Hs|].
    destruct H1 as [_ Hfl]; [lia|]. rewrite Hfl, Hn, Hd, Hs. reflexivity.
Qed.

Lemma delta_is_count_minus_floor_witness :
  has_required Demo.demo = true /\
  len Demo.demo = 10%Z /\ distinct_dates Demo.demo = 2%Z /\
  exists filt_df d,
    filtering Demo.demo Demo.critical_only = Ok filt_df /\
    delta Demo.demo filt_df = Ok d /\
    len filt_df = 3%Z /\ current_count filt_df = 3%Z /\ d = (-2)%Z.
Proof.
  split; [reflexivity|]. split; [reflexivity|]. split; [reflexivity|].
  destruct (delta_is_count_minus_floor Demo.demo Demo.critical_only eq_refl)
    as [f [a [d [Hf [_ [Hd [_ [_ Hs]]]]]]]].
  exists f, d. split; [exact Hf|]. split; [exact Hd|].
  assert (L : len f = 3%Z).
  { vm_compute in Hf. injection Hf as <-. reflexivity. }
  split; [exact L|]. apply Hs; [reflexivity|reflexivity|exact L].
Defined.

(** *** Keys are compared by an equivalence *)

Lemma pow10_pos n : (0 < pow10 n)%Z.
Proof. unfold pow10. apply Z.pow_pos_nonneg; lia. Qed.

Lemma Dec_eqb_sym a b : Dec_eqb a b = Dec_eqb b a.
Proof. unfold Dec_eqb. apply Z.eqb_sym. Qed.

Lemma Dec_eqb_trans a b c :
  Dec_eqb a b = true -> Dec_eqb b c = true -> Dec_eqb a c = true.
Proof.
  unfold Dec_eqb. rewrite !Z.eqb_eq. intros H1 H2.
  pose proof (pow10_pos (scale b)) as Hb.
  apply Z.mul_reg_r with (pow10 (scale b)); [lia|].
  transitivity (mant b * pow10 (scale a) * pow10 (scale c))%Z.
  - rewrite <- H1. ring.
  - rewrite <- Z.mul_assoc, (Z.mul_comm (pow10 (scale a))), Z.mul_assoc, H2. ring.
Qed.

Lemma time_eqb_eq s t : time_eqb s t = true -> s = t.
Proof.
  unfold time_eqb. rewrite !andb_true_iff, !Nat.eqb_eq.
  destruct s, t; simpl. intuition congruence.
Qed.

Lemma py_eq_sym a b : py_eq a b = py_eq b a.
Proof.
  destruct a, b; simpl; try reflexivity;
    try apply String.eqb_sym; try apply Dec_eqb_sym.
  destruct (time_eqb t t0) eqn:E.
  - apply time_eqb_eq in E. subst. now rewrite time_eqb_refl.
  - destruct (time_eqb t0 t) eqn:E'; [|reflexivity].
    apply time_eqb_eq in E'. subst. now rewrite time_eqb_refl in E.
Qed.

Lemma same_key_sym a b : same_key a b = same_key b a.
Proof. unfold same_key. now rewrite py_eq_sym, andb_comm. Qed.

(** Two cells are equal as text, as timestamps, or as numbers. *)
Lemma py_eq_cases a b :
  py_eq a b = true ->
  (exists s, a = VStr s /\ b = VStr s) \/
  (exists t, a = VTime t /\ b = VTime t) \/
  (exists x y, to_num a = Some x /\ to_num b = Some y /\ Dec_eqb x y = true).
Proof.
  destruct a, b; simpl; try discriminate; intros H;
    try (right; right; eauto; fail).
  - left. apply String.eqb_eq in H. subst. eauto.
  - right; left. apply time_eqb_eq in H. subst. eauto.
Qed.

Lemma py_eq_num a b x y :
  to_num a = Some x -> to_num b = Some y -> py_eq a b = Dec_eqb x y.
Proof.
  destruct a, b; simpl; try discriminate; intros [= <-] [= <-]; reflexivity.
Qed.

Lemma py_eq_trans a b c : py_eq a b = true -> py_eq b c = true -> py_eq a c = true.
Proof.
  intros H1 H2.
  destruct (py_eq_cases _ _ H1) as [[s [-> ->]]|[[t [-> ->]]|[x [y [Hx [Hy E1]]]]]];
    [exact H2|exact H2|].
  destruct (py_eq_cases _ _ H2) as [[s [-> _]]|[[t [-> _]]|[y' [z [Hy' [Hz E2]]]]]];
    [discriminate|discriminate|].
  rewrite Hy in Hy'. injection Hy' as <-.
  rewrite (py_eq_num _ _ _ _ Hx Hz). eapply Dec_eqb_trans; eassumption.
Qed.

Lemma py_eq_notna a b : py_eq a b = true -> isna a = false /\ isna b = false.
Proof. destruct a, b; simpl; try discriminate; auto. Qed.

Lemma same_key_trans a b c :
  same_key a b = true -> same_key b c = true -> same_key a c = true.
Proof.
  unfold same_key. rewrite !orb_true_iff, !andb_true_iff.
  intros [H1|[Ha Hb]] [H2|[Hb' Hc]].
  - left. eapply py_eq_trans; eassumption.
  - apply py_eq_notna in H1. destruct H1; congruence.
  - apply py_eq_notna in H2. destruct H2; congruence.
  - now right.
Qed.

(** Two equal keys are equal to the same cells. *)
Lemma same_key_congr a b x : same_key a b = true -> same_key a x = same_key b x.
Proof.
  intros H. destruct (same_key b x) eqn:E.
  - eapply same_key_trans; eassumption.
  - destruct (same_key a x) eqn:E'; [|reflexivity].
    rewrite same_key_sym in H. rewrite <- E. symmetry.
    eapply same_key_trans; eassumption.
Qed.

Lemma same_key_na a x : isna a = false -> isna x = true -> same_key a x = false.
Proof.
  intros Ha Hx. unfold same_key. rewrite Ha. simpl. rewrite orb_false_r.
  destruct (py_eq a x) eqn:E; [|reflexivity].
  apply py_eq_notna in E. destruct E; congruence.
Qed.

Lemma count_of_congr a b l : same_key a b = true -> count_of a l = count_of b l.
Proof.
  intros H. unfold count_of. f_equal. apply filter_ext.
  intros x. now apply same_key_congr.
Qed.

Lemma first_pos_congr a b l : same_key a b = true -> first_pos a l = first_pos b l.
Proof.
  intros H. induction l as [|x l IH]; simpl; [reflexivity|].
  now rewrite (same_key_congr a b x H), IH.
Qed.

(** Missing values do not count for a key that is not missing. *)
Lemma count_of_dropna a l : isna a = false -> count_of a (dropna l) = count_of a l.
Proof.
  intros Ha. unfold count_of, dropna. rewrite filter_filter. f_equal.
  apply filter_ext. intros x. destruct (isna x) eqn:E; simpl; [|reflexivity].
  symmetry. now apply same_key_na.
Qed.

Lemma first_pos_dropna a b l :
  isna a = false -> isna b = false ->
  (first_pos a (dropna l) <= first_pos b (dropna l))%nat ->
  (first_pos a l <= first_pos b l)%nat.
Proof.
  intros Ha Hb. induction l as [|x l IH]; simpl; [auto|].
  destruct (isna x) eqn:E; simpl.
  - rewrite (same_key_na a x Ha E), (same_key_na b x Hb E). intros H. apply IH in H. lia.
  - destruct (same_key a x); [lia|]. destruct (same_key b x); [lia|].
    intros H. apply le_S_n in H. apply IH in H. lia.
Qed.

Lemma count_of_pos a x l :
  In x l -> same_key a x = true -> (0 < count_of a l)%nat.
Proof.
  intros Hx H. unfold count_of.
  assert (I : In x (filter (same_key a) l)) by (apply filter_In; auto).
  destruct (filter (same_key a) l); [destruct I|simpl; lia].
Qed.

Lemma count_of_zero a l :
  count_of a l = O -> forall x, In x l -> same_key a x = false.
Proof.
  intros H x Hx. destruct (same_key a x) eqn:E; [|reflexivity].
  pose proof (count_of_pos a x l Hx E). lia.
Qed.

(** *** The most frequent value *)

Lemma fold_first_max t : forall seen b,
  first_max b seen -> first_max (fold_left better t b) (seen ++ t)%list.
Proof.
  induction t as [|q t IH]; intros seen b H; simpl.
  - now rewrite app_nil_r.
  - replace (seen ++ q :: t)%list with ((seen ++ [q]) ++ t)%list
      by (now rewrite <- app_assoc).
    apply IH. destruct H as [l1 [l2 [-> [H1 H2]]]].
    unfold better. destruct (snd b <? snd q)%nat eqn:E.
    + apply Nat.ltb_lt in E. exists (l1 ++ b :: l2)%list, []. split; [reflexivity|].
      split; [|intros ? []]. intros x Hx. apply in_app_or in Hx.
      destruct Hx as [Hx|[<-|Hx]]; [apply H1 in Hx|..|apply H2 in Hx]; lia.
    + apply Nat.ltb_ge in E. exists l1, (l2 ++ [q])%list.
      split; [now rewrite <- app_assoc|]. split; [exact H1|].
      intros x Hx. apply in_app_or in Hx. destruct Hx as [Hx|[<-|[]]]; auto.
Qed.

(** [idxmax] returns the label of the first greatest entry. *)
Lemma idxmax_first_max p l :
  exists b, idxmax (p :: l) = Ok (fst b) /\ first_max b (p :: l).
Proof.
  exists (fold_left better l p). split; [reflexivity|].
  apply (fold_first_max l [p] p). exists [], []. split; [reflexivity|].
  split; intros ? [].
Qed.

Lemma In_insert_desc x p l : In x (insert_desc p l) -> x = p \/ In x l.
Proof.
  induction l as [|q l IH]; simpl.
  - intros [<-|[]]; auto.
  - destruct (snd q <=? snd p)%nat; simpl.
    + intros [<-|H]; auto.
    + intros [<-|H]; auto. destruct (IH H); auto.
Qed.

Lemma In_sort_values_desc x l : In x (sort_values_desc l) -> In x l.
Proof.
  induction l as [|p l IH]; simpl; [auto|].
  intros H. apply In_insert_desc in H. destruct H as [->|H]; auto.
Qed.

(** Sorting puts the first greatest entry in front. *)
Lemma sort_values_desc_head p l :
  first_max p l ->
  exists rest, sort_values_desc l = p :: rest /\
               forall q, In q rest -> (snd q <= snd p)%nat.
Proof.
  revert p. induction l as [|x l IH]; intros p [l1 [l2 [E [H1 H2]]]].
  - destruct l1; discriminate.
  - destruct l1 as [|y l1]; simpl in E; injection E as <- ->; simpl.
    + destruct (sort_values_desc l2) as [|q s] eqn:Es; simpl.
      * exists []. split; [reflexivity|]. intros ? [].
      * assert (Hq : forall z, In z (q :: s) -> (snd z <= snd x)%nat).
        { intros z Hz. apply H2. apply In_sort_values_desc. now rewrite Es. }
        pose proof (Hq q (or_introl eq_refl)) as Hq0.
        apply Nat.leb_le in Hq0. rewrite Hq0.
        exists (q :: s). split; [reflexivity|exact Hq].
    + destruct (IH p) as [rest [Er Hr]].
      { exists l1, l2. split; [reflexivity|]. split; [|exact H2].
        intros q Hq. apply H1. now right. }
      rewrite Er. simpl.
      assert (Hx : (snd x < snd p)%nat) by (apply H1; now left).
      destruct (snd p <=? snd x)%nat eqn:El; [apply Nat.leb_le in El; lia|].
      exists (insert_desc x rest). split; [reflexivity|].
      intros q Hq. apply In_insert_desc in Hq. destruct Hq as [->|Hq]; [lia|auto].
Qed.

Lemma fold_better_keeps p l :
  (forall q, In q l -> (snd q <= snd p)%nat) -> fold_left better l p = p.
Proof.
  revert p. induction l as [|q l IH]; intros p H; simpl; [reflexivity|].
  unfold better at 2.
  destruct (snd p <? snd q)%nat eqn:E.
  - apply Nat.ltb_lt in E. specialize (H q (or_introl eq_refl)). lia.
  - apply IH. intros z Hz. apply H. now right.
Qed.

(** On the sorted counts [idxmax] names the first greatest entry of the
    counts as they were before sorting. *)
Lemma idxmax_sorted p l :
  first_max p l -> idxmax (sort_values_desc l) = Ok (fst p).
Proof.
  intros H. destruct (sort_values_desc_head p l H) as [rest [-> Hr]].
  unfold idxmax. now rewrite fold_better_keeps.
Qed.

(** *** [unique] lists the values in order of first appearance *)

Lemma unique_from_fresh x l : forall seen,
  In x (unique_from seen l) -> existsb (same_key x) seen = false.
Proof.
  induction l as [|y l IH]; intros seen H; [destruct H|].
  simpl in H. destruct (existsb (same_key y) seen) eqn:E; [now apply IH|].
  destruct H as [->|H]; [exact E|].
  apply IH in H. simpl in H. now apply orb_false_iff in H.
Qed.

Lemma unique_from_In x l : forall seen, In x (unique_from seen l) -> In x l.
Proof.
  induction l as [|y l IH]; intros seen H; [destruct H|].
  simpl in H. destruct (existsb (same_key y) seen).
  - right. eapply IH; eassumption.
  - destruct H as [->|H]; [now left|right; eapply IH; eassumption].
Qed.

Lemma existsb_same_key_congr a b l :
  same_key a b = true -> existsb (same_key a) l = existsb (same_key b) l.
Proof.
  intros H. induction l as [|x l IH]; simpl; [reflexivity|].
  now rewrite (same_key_congr a b x H), IH.
Qed.

Lemma unique_from_order t k l : forall seen k1 k2,
  unique_from seen l = (k1 ++ t :: k2)%list -> In k k2 ->
  (first_pos t l <= first_pos k l)%nat.
Proof.
  induction l as [|y l IH]; intros seen k1 k2 E Hk.
  - destruct k1; discriminate.
  - simpl in E. simpl.
    destruct (same_key t y) eqn:Et; [lia|].
    assert (Hout : forall seen', In k (unique_from seen' l) ->
                   existsb (same_key y) seen' = true -> same_key k y = false).
    { intros seen' Hin Hy. destruct (same_key k y) eqn:Ek; [|reflexivity].
      apply unique_from_fresh in Hin.
      rewrite (existsb_same_key_congr k y seen' Ek) in Hin. congruence. }
    destruct (existsb (same_key y) seen) eqn:Ey.
    + rewrite (Hout seen); [|rewrite E; apply in_or_app; right; now right|exact Ey].
      apply le_n_S. eapply IH; eassumption.
    + destruct k1 as [|z k1]; simpl in E; injection E as <- E.
      * now rewrite same_key_refl in Et.
      * rewrite (Hout (y :: seen)).
        -- apply le_n_S. eapply IH; eassumption.
        -- rewrite E. apply in_or_app. right. now right.
        -- simpl. now rewrite same_key_refl.
Qed.

Lemma unique_nonempty x l : In x l -> unique l <> [].
Proof.
  intros H E. apply unique_covers in H. rewrite E in H. discriminate.
Qed.

Lemma In_existsb_same_key x l :
  existsb (same_key x) l = true -> exists k, In k l /\ same_key x k = true.
Proof. intros H. apply existsb_exists in H. exact H. Qed.

(** *** Summary *)

Lemma len_pos f : rows f <> [] -> (len f >? 0)%Z = true.
Proof.
  intros H. unfold len. destruct (rows f); [contradiction|].
  apply Z.gtb_lt. cbn [List.length]. lia.
Qed.

(** The value [top_threat] names: it is in the column, it is not missing,
    no value occurs more often, and no value that occurs as often occurs
    earlier. *)
Lemma value_counts_idxmax threats :
  (exists v, In v threats /\ isna v = false) ->
  exists t, idxmax (value_counts threats) = Ok t /\
    In t threats /\ isna t = false /\
    forall u, isna u = false ->
      (count_of u threats <= count_of t threats)%nat /\
      (count_of u threats = count_of t threats ->
       (first_pos t threats <= first_pos u threats)%nat).
Proof.
  intros [v [Hv Hna]].
  set (l := dropna threats).
  assert (Hvl : In v l) by (apply filter_In; split; [exact Hv|now rewrite Hna]).
  assert (Hl : forall x, In x l -> In x threats /\ isna x = false).
  { intros x Hx. apply filter_In in Hx. destruct Hx as [Hx Hn].
    split; [exact Hx|]. now destruct (isna x). }
  unfold value_counts. fold l. unfold counts.
  destruct (unique l) as [|k0 ks] eqn:Eu; [now apply unique_nonempty in Hvl|].
  rewrite <- Eu.
  destruct (idxmax_first_max (k0, count_of k0 l)
              (map (fun k => (k, count_of k l)) ks)) as [b [_ Hb]].
  change ((k0, count_of k0 l) :: map (fun k => (k, count_of k l)) ks)
    with (map (fun k => (k, count_of k l)) (k0 :: ks)) in Hb.
  rewrite <- Eu in Hb.
  rewrite (idxmax_sorted b _ Hb).
  destruct Hb as [l1 [l2 [E [H1 H2]]]].
  apply map_eq_app in E. destruct E as [k1 [k2' [Ek [E1 E2]]]].
  apply map_eq_cons in E2. destruct E2 as [t [k2 [-> [Et E2]]]].
  subst b l1 l2. simpl fst. simpl snd in H1, H2.
  assert (Ht : In t l).
  { apply (unique_from_In t l []). fold (unique l). rewrite Ek.
    apply in_or_app. right. now left. }
  destruct (Hl t Ht) as [Htt Htn].
  exists t. split; [reflexivity|]. split; [exact Htt|]. split; [exact Htn|].
  intros u Hu. rewrite <- !(count_of_dropna _ threats) by assumption. fold l.
  destruct (count_of u l) as [|n] eqn:Ec.
  - split; [lia|]. intros E. pose proof (count_of_pos t t l Ht (same_key_refl t)) as P.
    rewrite <- E in P. lia.
  - rewrite <- Ec.
    assert (Hx : exists x, In x l /\ same_key u x = true).
    { unfold count_of in Ec. destruct (filter (same_key u) l) as [|x f] eqn:Ef;
        [discriminate|].
      exists x. apply filter_In. rewrite Ef. now left. }
    destruct Hx as [x [Hx Hux]].
    destruct (In_existsb_same_key x (unique l) (unique_covers x l Hx)) as [k [Hk Hxk]].
    assert (Huk : same_key u k = true) by (eapply same_key_trans; eassumption).
    rewrite (count_of_congr u k l Huk), (first_pos_congr u k threats Huk).
    assert (Hkl : In k l) by (apply (unique_from_In k l []); exact Hk).
    rewrite Ek in Hk. apply in_app_or in Hk.
    destruct Hk as [Hk|[<-|Hk]].
    + specialize (H1 (k, count_of k l) (in_map _ _ _ Hk)). simpl in H1.
      split; [lia|lia].
    + split; [lia|lia].
    + specialize (H2 (k, count_of k l) (in_map _ _ _ Hk)). simpl in H2.
      split; [exact H2|]. intros _.
      apply first_pos_dropna; [exact Htn|now destruct (Hl k Hkl)|]. fold l.
      eapply (unique_from_order t k l []); eassumption.
Qed.



(** *** Export: what the reader makes of what the writer wrote *)

Lemma append_assoc (a b c : string) : ((a ++ b) ++ c = a ++ (b ++ c))%string.
Proof. induction a as [|x a IH]; simpl; [reflexivity|now rewrite IH]. Qed.

Lemma append_nil_r (a : string) : (a ++ "" = a)%string.
Proof. induction a as [|x a IH]; simpl; [reflexivity|now rewrite IH]. Qed.

Lemma push_append cur c s : (push cur c ++ s = cur ++ String c s)%string.
Proof. unfold push. now rewrite append_assoc. Qed.

Lemma has_char_cons c d s :
  has_char c (String d s) = false -> d <> c /\ has_char c s = false.
Proof.
  simpl. intros H. apply orb_false_iff in H. destruct H as [H1 H2].
  apply Ascii.eqb_neq in H1. split; [congruence|exact H2].
Qed.

Ltac neq_false :=
  repeat match goal with
         | H : ?c <> ?d |- context [Ascii.eqb ?c ?d] =>
             rewrite (proj2 (Ascii.eqb_neq c d) H)
         end.

(** One step of the tokenizer, state by state. *)

Lemma in_field_plain c cur row t :
  plain c -> tokenize InField cur row (String c t) = tokenize InField (push cur c) row t.
Proof. intros [H1 [H2 H3]]. cbn [tokenize step]. unfold in_field. now neq_false. Qed.

Lemma in_field_comma cur row t :
  tokenize InField cur row (String COMMA t) = tokenize StartField "" (row ++ [cur])%list t.
Proof. reflexivity. Qed.

Lemma in_field_lf cur row t :
  tokenize InField cur row (String LF t) =
  (r <- tokenize StartRecord "" [] t ;; Ok ((row ++ [cur])%list :: r)).
Proof. reflexivity. Qed.

Lemma start_field_not_quote c cur row t :
  c <> QUOTE -> tokenize StartField cur row (String c t) = tokenize InField cur row (String c t).
Proof. intros H. cbn [tokenize step]. unfold start_field. now neq_false. Qed.

Lemma start_field_quote cur row t :
  tokenize StartField cur row (String QUOTE t) = tokenize InQuoted cur row t.
Proof. reflexivity. Qed.

Lemma start_record_other c t :
  c <> LF -> c <> CR -> is_blank c = false ->
  tokenize StartRecord "" [] (String c t) = tokenize StartField "" [] (String c t).
Proof.
  intros H1 H2 H3. cbn [tokenize step]. unfold start_record. neq_false. now rewrite H3.
Qed.

Lemma start_record_blank c t :
  is_blank c = true ->
  tokenize StartRecord "" [] (String c t) = tokenize WhitespaceLine (push "" c) [] t.
Proof.
  intros H. assert (c <> LF /\ c <> CR) as [H1 H2].
  { unfold is_blank in H. apply orb_true_iff in H.
    destruct H as [H|H]; apply Ascii.eqb_eq in H; subst; split; discriminate. }
  cbn [tokenize step]. unfold start_record. neq_false. now rewrite H.
Qed.

Lemma whitespace_blank c cur t :
  is_blank c = true ->
  tokenize WhitespaceLine cur [] (String c t) = tokenize WhitespaceLine (push cur c) [] t.
Proof.
  intros H. assert (c <> LF /\ c <> CR) as [H1 H2].
  { unfold is_blank in H. apply orb_true_iff in H.
    destruct H as [H|H]; apply Ascii.eqb_eq in H; subst; split; discriminate. }
  cbn [tokenize step]. neq_false. now rewrite H.
Qed.

Lemma whitespace_other c cur t :
  c <> LF -> c <> CR -> is_blank c = false ->
  tokenize WhitespaceLine cur [] (String c t) = tokenize InField cur [] (String c t).
Proof. intros H1 H2 H3. cbn [tokenize step]. neq_false. now rewrite H3. Qed.

Lemma in_quoted_quote cur row t :
  tokenize InQuoted cur row (String QUOTE t) = tokenize QuoteInQuoted cur row t.
Proof. reflexivity. Qed.

Lemma in_quoted_other c cur row t :
  c <> QUOTE -> tokenize InQuoted cur row (String c t) = tokenize InQuoted (push cur c) row t.
Proof. intros H. cbn [tokenize step]. now neq_false. Qed.

Lemma quote_in_quoted_quote cur row t :
  tokenize QuoteInQuoted cur row (String QUOTE t) = tokenize InQuoted (push cur QUOTE) row t.
Proof. reflexivity. Qed.

Lemma quote_in_quoted_other c cur row t :
  c <> QUOTE ->
  tokenize QuoteInQuoted cur row (String c t) = tokenize InField cur row (String c t).
Proof. intros H. cbn [tokenize step]. now neq_false. Qed.

(** A run of plain characters is added to the field. *)
Lemma in_field_run s : forall cur row t,
  has_char COMMA s = false -> has_char LF s = false -> has_char CR s = false ->
  tokenize InField cur row (s ++ t) = tokenize InField (cur ++ s) row t.
Proof.
  induction s as [|c s IH]; intros cur row t H1 H2 H3.
  - now rewrite append_nil_r.
  - apply has_char_cons in H1, H2, H3.
    destruct H1 as [N1 H1], H2 as [N2 H2], H3 as [N3 H3].
    change (String c s ++ t)%string with (String c (s ++ t)).
    rewrite in_field_plain by (repeat split; assumption).
    rewrite IH by assumption. now rewrite push_append.
Qed.

(** The same from the start of a line, where leading blanks are held back
    until the line turns out not to be blank. *)
Lemma whitespace_run s : forall cur t,
  has_char COMMA s = false -> has_char LF s = false -> has_char CR s = false ->
  tokenize WhitespaceLine cur [] (s ++ String COMMA t) =
  tokenize InField (cur ++ s) [] (String COMMA t).
Proof.
  induction s as [|c s IH]; intros cur t H1 H2 H3.
  - rewrite append_nil_r. simpl append.
    apply whitespace_other; [discriminate|discriminate|reflexivity].
  - apply has_char_cons in H1, H2, H3.
    destruct H1 as [N1 H1], H2 as [N2 H2], H3 as [N3 H3].
    change (String c s ++ String COMMA t)%string with (String c (s ++ String COMMA t)).
    destruct (is_blank c) eqn:B.
    + rewrite whitespace_blank by assumption. rewrite IH by assumption.
      now rewrite push_append.
    + rewrite whitespace_other by assumption.
      rewrite in_field_plain by (repeat split; assumption).
      rewrite in_field_run by assumption. now rewrite push_append.
Qed.

(** A quoted field is read back with its quotes undoubled. *)
Lemma in_quoted_run s : forall cur row t,
  tokenize InQuoted cur row (double_quotes s ++ String QUOTE t) =
  tokenize QuoteInQuoted (cur ++ s) row t.
Proof.
  induction s as [|c s IH]; intros cur row t.
  - rewrite append_nil_r. reflexivity.
  - simpl double_quotes. destruct (Ascii.eqb_spec c QUOTE) as [->|N].
    + change (tokenize InQuoted cur row
                (String QUOTE (String QUOTE (double_quotes s ++ String QUOTE t))) =
              tokenize QuoteInQuoted (cur ++ String QUOTE s) row t).
      rewrite in_quoted_quote, quote_in_quoted_quote, IH. now rewrite push_append.
    + change (tokenize InQuoted cur row (String c (double_quotes s ++ String QUOTE t)) =
              tokenize QuoteInQuoted (cur ++ String c s) row t).
      rewrite in_quoted_other by assumption. rewrite IH. now rewrite push_append.
Qed.

Lemma separator_not_quote c : separator c -> c <> QUOTE.
Proof. intros [->| ->]; discriminate. Qed.

Lemma needs_quotes_false s :
  needs_quotes s = false ->
  has_char COMMA s = false /\ has_char QUOTE s = false /\ has_char LF s = false.
Proof.
  unfold needs_quotes. intros H. apply orb_false_iff in H. destruct H as [H H3].
  apply orb_false_iff in H. tauto.
Qed.

(** A field as the writer wrote it, read from the start of a field. *)
Lemma read_field s c row t :
  has_char CR s = false -> separator c ->
  tokenize StartField "" row (write_field s ++ String c t) =
  tokenize InField s row (String c t).
Proof.
  intros Hcr Hc. pose proof (separator_not_quote c Hc) as Nq.
  unfold write_field. destruct (needs_quotes s) eqn:E.
  - change (tokenize StartField "" row
              (String QUOTE ((double_quotes s ++ String QUOTE "") ++ String c t)) =
            tokenize InField s row (String c t)).
    rewrite start_field_quote, append_assoc. simpl append.
    rewrite in_quoted_run. simpl append.
    now apply quote_in_quoted_other.
  - apply needs_quotes_false in E. destruct E as [H1 [H2 H3]].
    destruct s as [|d s].
    + simpl append. now apply start_field_not_quote.
    + apply has_char_cons in H1, H2, H3, Hcr.
      destruct H1 as [N1 H1], H2 as [N2 H2], H3 as [N3 H3], Hcr as [N4 H4].
      change (String d s ++ String c t)%string with (String d (s ++ String c t)).
      rewrite start_field_not_quote by assumption.
      rewrite in_field_plain by (repeat split; assumption).
      now rewrite in_field_run.
Qed.

(** The first field of a line, which a comma follows. *)
Lemma read_first_field s t :
  has_char CR s = false ->
  tokenize StartRecord "" [] (write_field s ++ String COMMA t) =
  tokenize InField s [] (String COMMA t).
Proof.
  intros Hcr.
  assert (Hsf : tokenize StartField "" [] (write_field s ++ String COMMA t) =
                tokenize InField s [] (String COMMA t))
    by (apply read_field; [assumption|now left]).
  unfold write_field in *. destruct (needs_quotes s) eqn:E.
  - rewrite <- Hsf.
    change (String QUOTE (double_quotes s ++ String QUOTE "") ++ String COMMA t)%string
      with (String QUOTE ((double_quotes s ++ String QUOTE "") ++ String COMMA t)).
    apply start_record_other; [discriminate|discriminate|reflexivity].
  - apply needs_quotes_false in E. destruct E as [H1 [H2 H3]].
    destruct s as [|d s].
    + rewrite <- Hsf. simpl append.
      apply start_record_other; [discriminate|discriminate|reflexivity].
    + apply has_char_cons in H1, H2, H3, Hcr.
      destruct H1 as [N1 H1], H2 as [N2 H2], H3 as [N3 H3], Hcr as [N4 H4].
      change (String d s ++ String COMMA t)%string with (String d (s ++ String COMMA t)).
      destruct (is_blank d) eqn:B.
      * rewrite start_record_blank by assumption.
        now rewrite whitespace_run.
      * rewrite <- Hsf.
        change (String d s ++ String COMMA t)%string with (String d (s ++ String COMMA t)).
        now apply start_record_other.
Qed.

Lemma join_cons x y l :
  join (String COMMA "") (x :: y :: l) =
  (x ++ String COMMA (join (String COMMA "") (y :: l)))%string.
Proof. reflexivity. Qed.

(** The fields of a line after the first. *)
Lemma read_fields fs : forall row t,
  fs <> [] -> cr_free fs ->
  tokenize StartField "" row
    (join (String COMMA "") (map write_field fs) ++ String LF t) =
  (r <- tokenize StartRecord "" [] t ;; Ok ((row ++ fs)%list :: r)).
Proof.
  induction fs as [|f fs IH]; intros row t Hne Hcr; [contradiction|].
  assert (Hf : has_char CR f = false) by (apply Hcr; now left).
  destruct fs as [|g fs].
  - simpl map. unfold join. simpl String.concat.
    rewrite read_field by (assumption || now right).
    apply in_field_lf.
  - simpl map. rewrite join_cons, append_assoc.
    change (String COMMA (join (String COMMA "") (write_field g :: map write_field fs))
            ++ String LF t)%string
      with (String COMMA (join (String COMMA "") (map write_field (g :: fs))
                          ++ String LF t)).
    rewrite read_field by (assumption || now left).
    rewrite in_field_comma, IH.
    + now rewrite <- app_assoc.
    + discriminate.
    + intros s Hs. apply Hcr. now right.
Qed.

(** A line of at least two fields. *)
Lemma read_row fs t :
  (2 <= List.length fs)%nat -> cr_free fs ->
  tokenize StartRecord "" [] (write_row fs ++ t) =
  (r <- tokenize StartRecord "" [] t ;; Ok (fs :: r)).
Proof.
  intros Hlen Hcr. destruct fs as [|f [|g fs]]; simpl in Hlen; try lia.
  unfold write_row. cbv beta iota.
  - rewrite append_assoc. simpl map. rewrite join_cons, append_assoc.
    change (String COMMA (join (String COMMA "") (write_field g :: map write_field fs))
            ++ String LF "" ++ t)%string
      with (String COMMA (join (String COMMA "") (map write_field (g :: fs))
                          ++ String LF t)).
    rewrite read_first_field by (apply Hcr; now left).
    rewrite in_field_comma, read_fields.
    + reflexivity.
    + discriminate.
    + intros s Hs. apply Hcr. now right.
Qed.

Lemma concat_cons (x : string) (l : list string) :
  String.concat "" (x :: l) = (x ++ String.concat "" l)%string.
Proof. destruct l; simpl; [now rewrite append_nil_r|reflexivity]. Qed.

(** A file of such lines. *)
Lemma read_rows (ls : list (list string)) :
  (forall fs, In fs ls -> (2 <= List.length fs)%nat /\ cr_free fs) ->
  tokenize StartRecord "" [] (String.concat "" (map write_row ls)) = Ok ls.
Proof.
  induction ls as [|fs ls IH]; intros H; [reflexivity|].
  simpl map. rewrite concat_cons.
  destruct (H fs (or_introl eq_refl)) as [H1 H2].
  rewrite read_row by assumption.
  rewrite IH; [reflexivity|]. intros x Hx. apply H. now right.
Qed.

Lemma csv_fields_length f r : List.length (csv_fields f r) = List.length (columns f).
Proof. unfold csv_fields. now rewrite length_map, length_seq. Qed.

Lemma no_cr_columns f : no_cr f = true -> cr_free (columns f).
Proof.
  unfold no_cr, cr_free. rewrite forallb_forall. intros H s Hs.
  apply negb_true_iff. apply H. apply in_or_app. now left.
Qed.

Lemma no_cr_fields f r : no_cr f = true -> In r (rows f) -> cr_free (csv_fields f r).
Proof.
  unfold no_cr, cr_free. rewrite forallb_forall. intros H Hr s Hs.
  apply negb_true_iff. apply H. apply in_or_app. right.
  apply in_concat. exists (csv_fields f r). split; [now apply in_map|exact Hs].
Qed.




(** *** The snapshot across runs *)

Lemma eval_keeps_cache {A} (r : result A) : keeps_cache (eval r).
Proof. intros s. reflexivity. Qed.

Lemma show_keeps_cache e : keeps_cache (show e).
Proof. intros s. reflexivity. Qed.


Create HintDb frame.
#[local] Hint Resolve eval_keeps_cache show_keeps_cache : frame.



(** *** Where the script and the specification part *)

(** C1, at a failing input.  The word "dtype" is in no field of any
    incident of the sample table, and a search for it keeps all ten: the
    printed row ends in a line that names the type of its values. *)
Example search_keeps_records_without_the_word :
  forallb (fun r => negb (in_some_field Demo.demo "dtype" r)) (rows Demo.demo) = true /\
  filtering Demo.demo Demo.search_dtype = Ok Demo.demo.
Proof. split; vm_compute; reflexivity. Qed.

(** On a subset without records both averages are [nan]. *)
Lemma averages_of_no_record f :
  has_required f = true -> rows f = [] ->
  avg_confidence f = Ok "nan%" /\ avg_mitigation f = Ok "nanm".
Proof.
  intros H Hr. unfold avg_confidence, avg_mitigation.
  required_column H "confidence_score" i Hi.
  required_column H "response_time_minutes" j Hj.
  rewrite (getitem_field f f _ i eq_refl Hi), (getitem_field f f _ j eq_refl Hj).
  rewrite Hr. split; reflexivity.
Qed.

(** C2, at a failing input.  With every severity unticked the subset of
    the sample table is empty, and the page shows the two averages as
    "nan%" and "nanm". *)
Example empty_subset_shows_nan :
  filtering Demo.demo Demo.nothing_ticked = Ok (mkFrame (columns Demo.demo) []) /\
  avg_confidence (mkFrame (columns Demo.demo) []) = Ok "nan%" /\
  avg_mitigation (mkFrame (columns Demo.demo) []) = Ok "nanm" /\
  In (Metric "Avg Confidence" "nan%" None)
     (page (snd (script Demo.file Demo.nothing_ticked Demo.fresh))) /\
  In (Metric "Avg Mitigation" "nanm" None)
     (page (snd (script Demo.file Demo.nothing_ticked Demo.fresh))).
Proof.
  split; [vm_compute; reflexivity|]. split; [vm_compute; reflexivity|].
  split; [vm_compute; reflexivity|]. split; vm_compute; tauto.
Qed.


(** ** Further properties of the script *)

Import Facts.

(** *** Substrings *)

Lemma prefix_split q s : prefix q s = true -> exists b, s = (q ++ b)%string.
Proof.
  revert s. induction q as [|c q IH]; intros s H.
  - exists s. reflexivity.
  - destruct s as [|d s]; [discriminate|]. simpl in H.
    destruct (ascii_dec c d) as [->|]; [|discriminate].
    destruct (IH s H) as [b ->]. exists b. reflexivity.
Qed.

Lemma prefix_append q b : prefix q (q ++ b) = true.
Proof.
  induction q as [|c q IH]; simpl; [now destruct b|].
  destruct (ascii_dec c c); [exact IH|contradiction].
Qed.

Lemma contains_unfold q s :
  contains q s = prefix q s || match s with
                              | EmptyString => false
                              | String _ t => contains q t
                              end.
Proof. destruct s; reflexivity. Qed.

(** [q in s] holds exactly when [s] is some text, [q], and some text. *)
Lemma contains_iff q s :
  contains q s = true <-> exists a b, s = (a ++ q ++ b)%string.
Proof.
  split.
  - induction s as [|c s IH]; rewrite contains_unfold; intros H;
      apply orb_true_iff in H; destruct H as [H|H].
    + destruct (prefix_split _ _ H) as [b E]. exists EmptyString, b. exact E.
    + discriminate.
    + destruct (prefix_split _ _ H) as [b E]. exists EmptyString, b. exact E.
    + destruct (IH H) as [a [b ->]]. exists (String c a), b. reflexivity.
  - intros [a [b ->]]. induction a as [|c a IH].
    + simpl append. rewrite contains_unfold, prefix_append. reflexivity.
    + change (String c a ++ q ++ b)%string with (String c (a ++ q ++ b)).
      rewrite contains_unfold. cbv beta iota. rewrite IH. apply orb_true_r.
Qed.

Lemma contains_refl s : contains s s = true.
Proof.
  apply contains_iff. exists EmptyString, EmptyString. simpl. now rewrite append_nil_r.
Qed.

Lemma contains_trans q1 q2 s :
  contains q1 q2 = true -> contains q2 s = true -> contains q1 s = true.
Proof.
  rewrite !contains_iff. intros [a [b ->]] [a' [b' ->]].
  exists (a' ++ a)%string, (b ++ b')%string. now rewrite !append_assoc.
Qed.

Lemma contains_append_l q a b : contains q a = true -> contains q (a ++ b) = true.
Proof.
  rewrite !contains_iff. intros [x [y ->]]. exists x, (y ++ b)%string.
  now rewrite !append_assoc.
Qed.

Lemma contains_append_r q a b : contains q b = true -> contains q (a ++ b) = true.
Proof.
  rewrite !contains_iff. intros [x [y ->]]. exists (a ++ x)%string, y.
  now rewrite !append_assoc.
Qed.


Lemma lower_append a b : lower (a ++ b) = (lower a ++ lower b)%string.
Proof. induction a as [|c a IH]; simpl; [reflexivity|now rewrite IH]. Qed.

Lemma contains_lower q s : contains q s = true -> contains (lower q) (lower s) = true.
Proof.
  rewrite !contains_iff. intros [a [b ->]]. exists (lower a), (lower b).
  now rewrite !lower_append.
Qed.

Lemma lower_char_idem c : lower_char (lower_char c) = lower_char c.
Proof.
  destruct c as [[] [] [] [] [] [] [] []]; reflexivity.
Qed.

Lemma lower_idem s : lower (lower s) = lower s.
Proof. induction s as [|c s IH]; simpl; [reflexivity|now rewrite lower_char_idem, IH]. Qed.

Lemma truthy_lower s : truthy (lower s) = truthy s.
Proof. destruct s; reflexivity. Qed.

(** *** The search *)

(** X1.  The search does not tell upper case from lower case in the
    query: two queries that are the same in lower case select the same
    subset. *)
Theorem search_ignores_case_of_query (df : DataFrame) (c : Criteria) (q q' : string) :
  lower q = lower q' ->
  filtering df (with_query c q) = filtering df (with_query c q').
Proof.
  intros E.
  assert (S : forall q0 f, by_search (with_query c q0) f =
                           if truthy (lower q0) then search (lower q0) f else f).
  { intros q0 f. unfold by_search. cbn [with_query search_query].
    rewrite truthy_lower. destruct (truthy q0); [|reflexivity].
    unfold search, search_mask. now rewrite lower_idem. }
  unfold filtering.
  change (severity_choice (with_query c q)) with (severity_choice (with_query c q')).
  change (by_system (with_query c q)) with (by_system (with_query c q')).
  change (by_status (with_query c q)) with (by_status (with_query c q')).
  destruct (getitem df "severity") as [s|e]; [|reflexivity]. simpl.
  destruct (by_system (with_query c q') _) as [f1|e1]; [|reflexivity]. simpl.
  destruct (by_status (with_query c q') f1) as [f2|e2]; [|reflexivity]. simpl.
  now rewrite !S, E.
Qed.

Lemma search_ignores_case_of_query_witness :
  lower "SRV-a" = lower "srv-A" /\
  filtering Demo.demo (with_query Demo.untouched "SRV-a") =
  filtering Demo.demo (with_query Demo.untouched "srv-A").
Proof.
  split; [reflexivity|].
  apply (search_ignores_case_of_query Demo.demo Demo.untouched "SRV-a" "srv-A").
  reflexivity.
Defined.

(** *** The filter as a whole *)

Lemma getitem_mask_columns f m : columns (getitem_mask f m) = columns f.
Proof. reflexivity. Qed.

Lemma by_system_columns c f g : by_system c f = Ok g -> columns g = columns f.
Proof.
  unfold by_system. destruct (negb _).
  - destruct (getitem f "affected_system"); simpl; [|discriminate]. now intros [= <-].
  - now intros [= <-].
Qed.

Lemma by_status_columns c f g : by_status c f = Ok g -> columns g = columns f.
Proof.
  unfold by_status. destruct (status_choice c).
  - now intros [= <-].
  - destruct (getitem f "is_resolved"); simpl; [|discriminate]. now intros [= <-].
  - destruct (getitem f "is_resolved"); simpl; [|discriminate]. now intros [= <-].
Qed.

Lemma by_search_columns c f :
  columns (by_search c f) = columns f \/
  (columns (by_search c f) = [] /\ rows (by_search c f) = []).
Proof.
  unfold by_search. destruct (truthy (search_query c)); [|now left].
  unfold search. destruct (rows f); [right; split; reflexivity|now left].
Qed.

(** A subset has the columns of the snapshot, or neither columns nor
    rows. *)
Lemma filtering_columns df c f :
  filtering df c = Ok f ->
  columns f = columns df \/ (columns f = [] /\ rows f = []).
Proof.
  unfold filtering.
  destruct (getitem df "severity") as [s|]; simpl; [|discriminate].
  destruct (by_system c _) as [f1|] eqn:E1; simpl; [|discriminate].
  destruct (by_status c f1) as [f2|] eqn:E2; simpl; [|discriminate].
  intros [= <-]. apply by_system_columns in E1. apply by_status_columns in E2.
  destruct (by_search_columns c f2) as [H|H]; [left|now right].
  rewrite H, E2, E1. reflexivity.
Qed.

Lemma subseq_filter_imp {A} (p q : A -> bool) (l : list A) :
  (forall x, In x l -> p x = true -> q x = true) ->
  subseq (filter p l) (filter q l).
Proof.
  induction l as [|x l IH]; intros H; simpl; [constructor|].
  assert (IH' : subseq (filter p l) (filter q l)).
  { apply IH. intros y Hy. apply H. now right. }
  destruct (p x) eqn:P.
  - rewrite (H x (or_introl eq_refl) P). now constructor.
  - destruct (q x); [now constructor|exact IH'].
Qed.

Lemma select_length m (l : list Row) : (List.length (select m l) <= List.length l)%nat.
Proof.
  revert m. induction l as [|r l IH]; intros [|b m]; simpl; try lia.
  destruct b; simpl; specialize (IH m); lia.
Qed.

Lemma filter_length {A} (p : A -> bool) (l : list A) :
  (List.length (filter p l) <= List.length l)%nat.
Proof.
  induction l as [|x l IH]; simpl; [lia|]. destruct (p x); simpl; lia.
Qed.

(** X2.  The four filters combine by "and": a record is in the subset
    exactly when it is in the snapshot and passes the severity, the
    system, the resolution and the search predicate; and a subset that
    has a record has all the columns of the snapshot. *)
Theorem subset_is_records_passing_all (df : DataFrame) (c : Criteria) :
  has_required df = true ->
  exists filt_df,
    filtering df c = Ok filt_df /\
    (forall r, In r (rows filt_df) <->
               In r (rows df) /\ severity_ok df c r = true /\
               system_ok df c r = true /\ status_ok df c r = true /\
               search_ok df c r = true) /\
    (rows filt_df <> [] -> columns filt_df = columns df).
Proof.
  intros H. destruct (filtering_rows df c H) as [f [Hf Hr]].
  exists f. split; [exact Hf|]. split.
  - intros r. rewrite Hr, filter_In. unfold keeps.
    rewrite !andb_true_iff. tauto.
  - intros Hne. destruct (filtering_columns df c f Hf) as [E|[_ E]];
      [exact E|contradiction].
Qed.

Lemma subset_is_records_passing_all_witness :
  has_required Demo.demo = true /\
  exists filt_df,
    filtering Demo.demo Demo.search_address = Ok filt_df /\
    (forall r, In r (rows filt_df) <->
               In r (rows Demo.demo) /\
               severity_ok Demo.demo Demo.search_address r = true /\
               system_ok Demo.demo Demo.search_address r = true /\
               status_ok Demo.demo Demo.search_address r = true /\
               search_ok Demo.demo Demo.search_address r = true) /\
    (rows filt_df <> [] -> columns filt_df = columns Demo.demo).
Proof.
  split; [reflexivity|].
  apply (subset_is_records_passing_all Demo.demo Demo.search_address). reflexivity.
Defined.

(** X3.  The first two KPIs are bounded: the number of selected events
    is at most the size of the snapshot, and the number of critical
    points, when it is shown, at most the number of selected events. *)
Theorem counts_are_bounded (df : DataFrame) (c : Criteria) :
  has_required df = true ->
  exists filt_df,
    filtering df c = Ok filt_df /\
    (0 <= current_count filt_df <= len df)%Z /\
    forall n, critical_points filt_df = Ok n -> (0 <= n <= current_count filt_df)%Z.
Proof.
  intros H. destruct (filtering_rows df c H) as [f [Hf Hr]].
  exists f. split; [exact Hf|]. split.
  - unfold current_count, len. rewrite Hr.
    pose proof (filter_length (keeps df c) (rows df)). lia.
  - intros n. unfold critical_points.
    destruct (getitem f "severity") as [s|]; simpl; [|discriminate].
    intros [= <-]. unfold current_count, len. simpl rows.
    pose proof (select_length (eq_scalar s (VStr "Critical")) (rows f)). lia.
Qed.

Lemma counts_are_bounded_witness :
  has_required Demo.demo = true /\
  exists filt_df,
    filtering Demo.demo Demo.critical_only = Ok filt_df /\
    (0 <= current_count filt_df <= len Demo.demo)%Z /\
    forall n, critical_points filt_df = Ok n -> (0 <= n <= current_count filt_df)%Z.
Proof.
  split; [reflexivity|].
  apply (counts_are_bounded Demo.demo Demo.critical_only). reflexivity.
Defined.

Lemma existsb_incl {A} (p : A -> bool) (l1 l2 : list A) :
  incl l1 l2 -> existsb p l1 = true -> existsb p l2 = true.
Proof.
  intros I H. apply existsb_exists in H. destruct H as [x [Hx Px]].
  apply existsb_exists. exists x. split; [now apply I|exact Px].
Qed.

(** X4.  Ticking more severities never removes a record: if every
    severity of one selection is in another, the subset of the first is
    a sub-sequence of the subset of the second. *)
Theorem more_severities_more_records (df : DataFrame) (c : Criteria)
        (sev1 sev2 : list value) :
  has_required df = true ->
  incl sev1 sev2 ->
  exists f1 f2,
    filtering df (with_severities c sev1) = Ok f1 /\
    filtering df (with_severities c sev2) = Ok f2 /\
    subseq (rows f1) (rows f2).
Proof.
  intros H I.
  destruct (filtering_rows df (with_severities c sev1) H) as [f1 [H1 R1]].
  destruct (filtering_rows df (with_severities c sev2) H) as [f2 [H2 R2]].
  exists f1, f2. split; [exact H1|]. split; [exact H2|].
  rewrite R1, R2. apply subseq_filter_imp. intros r _.
  unfold keeps, severity_ok, system_ok, status_ok, search_ok, with_severities.
  cbn [severity_choice system_choice status_choice search_query].
  rewrite !andb_true_iff. intros [[[S A] B] C].
  repeat split; try assumption. eapply existsb_incl; eassumption.
Qed.

Lemma more_severities_more_records_witness :
  has_required Demo.demo = true /\
  incl [VStr "Critical"] [VStr "High"; VStr "Critical"] /\
  exists f1 f2,
    filtering Demo.demo (with_severities Demo.untouched [VStr "Critical"]) = Ok f1 /\
    filtering Demo.demo (with_severities Demo.untouched [VStr "High"; VStr "Critical"]) = Ok f2 /\
    subseq (rows f1) (rows f2).
Proof.
  split; [reflexivity|].
  assert (I : incl [VStr "Critical"] [VStr "High"; VStr "Critical"]).
  { intros v [<-|[]]. right. now left. }
  split; [exact I|].
  apply (more_severities_more_records Demo.demo Demo.untouched
           [VStr "Critical"] [VStr "High"; VStr "Critical"]); [reflexivity|exact I].
Defined.



(** *** What the search box reads *)

Lemma contains_here q a b : contains q (a ++ q ++ b) = true.
Proof. apply contains_iff. now exists a, b. Qed.

Lemma contains_join x sep l : In x l -> contains x (join sep l) = true.
Proof.
  unfold join. induction l as [|y l IH]; [intros []|].
  intros [->|H].
  - destruct l; [apply contains_refl|].
    cbn [concat]. apply contains_append_l, contains_refl.
  - destruct l as [|z l]; [destruct H|].
    change (concat sep (y :: z :: l)) with (y ++ sep ++ concat sep (z :: l))%string.
    apply contains_append_r, contains_append_r. now apply IH.
Qed.

Lemma row_values_length cols r : List.length (row_values cols r) = List.length cols.
Proof. unfold row_values. now rewrite length_map, length_seq. Qed.

Lemma nth_row_values cols r i :
  (i < List.length cols)%nat -> nth i (row_values cols r) VNaN = cell_at i r.
Proof.
  intros H. unfold row_values.
  rewrite (nth_indep _ VNaN (cell_at 0 r)) by now rewrite length_map, length_seq.
  rewrite (map_nth (fun i => cell_at i r)), seq_nth by exact H. reflexivity.
Qed.

Lemma In_combine_nth {A B} (l : list A) (l' : list B) i a b :
  List.length l = List.length l' -> (i < List.length l)%nat ->
  In (nth i l a, nth i l' b) (combine l l').
Proof.
  intros E H. rewrite <- (combine_nth l l' i a b E).
  apply nth_In. rewrite length_combine. lia.
Qed.

Lemma max_len_In s l : In s l -> (String.length s <= max_len l)%nat.
Proof.
  induction l as [|x l IH]; [intros []|].
  intros [->|H]; simpl; [lia|]. specialize (IH H). lia.
Qed.

(** The printed row holds, for each column, a line that starts with the
    name and ends with the value, cut to the column width. *)
Lemma str_row_line cols r i :
  (i < List.length cols)%nat ->
  let vals := map fmt_cell (row_values cols r) in
  let w := Nat.min (max_len vals) max_colwidth in
  contains (ljust (nth i cols "") (max_len cols + 3) ++
            rjust (clip w (fmt_cell (cell_at i r))) w)
           (str_row cols r) = true.
Proof.
  intros H vals w. unfold str_row.
  destruct cols as [|c0 cols]; [simpl in H; lia|].
  apply contains_append_l. apply contains_join.
  apply in_map_iff.
  exists (nth i (c0 :: cols) "", nth i vals (fmt_cell VNaN)). split.
  - cbn [fst snd]. subst w vals.
    rewrite (map_nth fmt_cell), nth_row_values by exact H.
    reflexivity.
  - apply In_combine_nth; [|exact H].
    unfold vals. now rewrite length_map, row_values_length.
Qed.

Lemma str_row_column cols r col :
  In col cols -> contains col (str_row cols r) = true.
Proof.
  intros H. destruct (In_nth _ _ "" H) as [i [Hi E]].
  eapply contains_trans; [|apply (str_row_line cols r i Hi)].
  rewrite E. unfold ljust. apply contains_append_l, contains_append_l, contains_refl.
Qed.

Lemma footer_type n :
  contains ", dtype: object" ("Name: " ++ str_int n ++ ", dtype: object") = true.
Proof.
  apply (contains_append_r _ "Name: "), (contains_append_r _ (str_int n)).
  apply contains_refl.
Qed.

Lemma str_row_footer cols r : contains ", dtype: object" (str_row cols r) = true.
Proof.
  unfold str_row. destruct cols as [|c0 cols].
  - apply (contains_append_r _ "Series([], "), contains_append_l, footer_type.
  - apply contains_append_r, (contains_append_r _ (String "010" "")), footer_type.
Qed.

Lemma keeps_passes df c q r :
  keeps df (with_query c q) r =
  passes df c r && (negb (truthy q) ||
                    contains (lower q) (lower (str_row (columns df) r))).
Proof. reflexivity. Qed.

Lemma str_row_name cols r : contains "Name: " (str_row cols r) = true.
Proof.
  unfold str_row. destruct cols as [|c0 cols].
  - apply (contains_append_r _ "Series([], "), contains_append_l.
    apply (contains_append_l _ "Name: "), contains_refl.
  - apply contains_append_r, (contains_append_r _ (String "010" "")).
    apply (contains_append_l _ "Name: "), contains_refl.
Qed.

(** X6.  The search reads the whole printed row, which names every
    column and ends in a line that gives the label of the row and the
    type of its values: a query that is part of a column name, of
    "Name: " or of ", dtype: ", in any case, filters nothing, the subset
    is that of the other three filters. *)
Theorem query_in_names_or_footer_keeps_all (df : DataFrame) (c : Criteria) (q : string) :
  has_required df = true ->
  printed_whole df ->
  contains (lower q) "name: " = true \/
  contains (lower q) ", dtype: " = true \/
  (exists col, In col (columns df) /\ contains (lower q) (lower col) = true) ->
  exists filt_df,
    filtering df (with_query c q) = Ok filt_df /\
    rows filt_df = filter (passes df c) (rows df).
Proof.
  intros H _ Q. destruct (filtering_rows df (with_query c q) H) as [f [Hf Hr]].
  exists f. split; [exact Hf|]. rewrite Hr. apply filter_ext. intros r.
  rewrite keeps_passes.
  assert (E : contains (lower q) (lower (str_row (columns df) r)) = true).
  { destruct Q as [Q|[Q|[col [Hc Q]]]].
    - eapply contains_trans; [exact Q|].
      apply (contains_lower "Name: "), str_row_name.
    - eapply contains_trans; [exact Q|].
      apply (contains_lower ", dtype: ").
      eapply contains_trans; [|apply str_row_footer]. reflexivity.
    - eapply contains_trans; [exact Q|].
      now apply contains_lower, str_row_column. }
  now rewrite E, orb_true_r, andb_true_r.
Qed.

Lemma query_in_names_or_footer_keeps_all_witness :
  has_required Demo.demo = true /\
  printed_whole Demo.demo /\
  In "severity" (columns Demo.demo) /\
  contains (lower "Severity") (lower "severity") = true /\
  exists filt_df,
    filtering Demo.demo (with_query Demo.critical_only "Severity") = Ok filt_df /\
    rows filt_df = filter (passes Demo.demo Demo.critical_only) (rows Demo.demo).
Proof.
  assert (W : printed_whole Demo.demo) by (vm_compute; lia).
  assert (I : In "severity" (columns Demo.demo)) by (simpl; tauto).
  split; [reflexivity|]. split; [exact W|]. split; [exact I|].
  split; [reflexivity|].
  apply (query_in_names_or_footer_keeps_all Demo.demo Demo.critical_only "Severity");
    [reflexivity|exact W|].
  right. right. exists "severity". split; [exact I|reflexivity].
Defined.

Lemma escape_no_escape s : no_escape s = true -> escape s = s.
Proof.
  unfold no_escape. induction s as [|a s IH]; [reflexivity|].
  cbn [has_char escape]. unfold TAB, LF, CR.
  rewrite !negb_orb, !andb_true_iff, !negb_true_iff.
  intros [[[T1 T2] [L1 L2]] [C1 C2]].
  rewrite (Ascii.eqb_sym a), T1, (Ascii.eqb_sym a), L1, (Ascii.eqb_sym a), C1.
  cbn [append]. rewrite IH; [reflexivity|].
  unfold TAB, LF, CR. now rewrite T2, L2, C2.
Qed.

Lemma fmt_cell_printed v :
  printed_as_str v = true -> fmt_cell v = (" " ++ py_str v)%string.
Proof.
  destruct v as [s| | |[]| | |]; simpl; try discriminate; try reflexivity.
  intros H. now rewrite escape_no_escape.
Qed.

(** X7.  What the search does find: a record that passes the other
    three filters is kept when the query occurs, in any case, in the
    text of one of its fields, provided the field is text without tab or
    line end, an integer, a boolean or a timestamp, its text is shorter
    than the column width of 50, and the row is printed whole. *)
Theorem search_finds_short_fields (df : DataFrame) (c : Criteria) (q : string)
        (r : Row) (i : nat) :
  has_required df = true ->
  printed_whole df ->
  In r (rows df) ->
  passes df c r = true ->
  (i < List.length (columns df))%nat ->
  printed_as_str (cell_at i r) = true ->
  (String.length (py_str (cell_at i r)) < max_colwidth)%nat ->
  contains (lower q) (lower (py_str (cell_at i r))) = true ->
  exists filt_df,
    filtering df (with_query c q) = Ok filt_df /\ In r (rows filt_df).
Proof.
  intros H _ Hr Hp Hi Hv Hl Q.
  destruct (filtering_rows df (with_query c q) H) as [f [Hf Hrows]].
  exists f. split; [exact Hf|]. rewrite Hrows. apply filter_In. split; [exact Hr|].
  rewrite keeps_passes, Hp. cbn [andb]. apply orb_true_iff. right.
  eapply contains_trans; [exact Q|]. apply contains_lower.
  eapply contains_trans; [|apply (str_row_line (columns df) r i Hi)].
  cbv zeta. set (vals := map fmt_cell (row_values (columns df) r)).
  assert (M : (String.length (fmt_cell (cell_at i r)) <= max_len vals)%nat).
  { apply max_len_In. unfold vals. apply in_map_iff.
    exists (cell_at i r). split; [reflexivity|].
    rewrite <- (nth_row_values (columns df) r i Hi).
    apply nth_In. now rewrite row_values_length. }
  assert (L : (String.length (fmt_cell (cell_at i r)) <= max_colwidth)%nat).
  { rewrite (fmt_cell_printed _ Hv). cbn [append String.length]. lia. }
  unfold clip.
  replace (Nat.min (max_len vals) max_colwidth <? String.length (fmt_cell (cell_at i r)))%nat
    with false by (symmetry; apply Nat.ltb_ge; lia).
  rewrite (fmt_cell_printed _ Hv). unfold rjust.
  apply contains_append_r, contains_append_r, contains_append_r, contains_refl.
Qed.

Lemma search_finds_short_fields_witness :
  has_required Demo.demo = true /\
  printed_whole Demo.demo /\
  passes Demo.demo Demo.critical_only
         (Demo.incident 4 1 22 30 0 "Critical" "db-01" "DDoS" (mkDec 99 0) 5 true "10.0.0.7")
    = true /\
  contains (lower "DDOS") (lower "DDoS") = true /\
  exists filt_df,
    filtering Demo.demo (with_query Demo.critical_only "DDOS") = Ok filt_df /\
    In (Demo.incident 4 1 22 30 0 "Critical" "db-01" "DDoS" (mkDec 99 0) 5 true "10.0.0.7")
       (rows filt_df).
Proof.
  split; [reflexivity|]. split; [vm_compute; lia|]. split; [reflexivity|].
  split; [reflexivity|].
  apply (search_finds_short_fields Demo.demo Demo.critical_only "DDOS"
           (Demo.incident 4 1 22 30 0 "Critical" "db-01" "DDoS" (mkDec 99 0) 5 true "10.0.0.7")
           5%nat).
  - reflexivity.
  - vm_compute; lia.
  - simpl; tauto.
  - reflexivity.
  - vm_compute; lia.
  - reflexivity.
  - vm_compute; lia.
  - reflexivity.
Defined.

(** *** The second KPI *)

Lemma py_eq_str v s : py_eq v (VStr s) = true -> v = VStr s.
Proof.
  destruct v as [t| | |b| | |]; simpl; try discriminate;
    try (destruct b; discriminate).
  intros H. apply String.eqb_eq in H. now subst.
Qed.

(** X8.  When "Critical" is not among the ticked severities, the
    second KPI shows no critical point: zero is the only number the
    script can compute for it. *)
Theorem critical_points_zero_unless_ticked (df : DataFrame) (c : Criteria)
        (sev : list value) :
  has_required df = true ->
  existsb (same_key (VStr "Critical")) sev = false ->
  exists filt_df,
    filtering df (with_severities c sev) = Ok filt_df /\
    (forall n, critical_points filt_df = Ok n -> n = 0%Z) /\
    (search_query c = "" -> critical_points filt_df = Ok 0%Z).
Proof.
  intros H S.
  destruct (filtering_rows df (with_severities c sev) H) as [f [Hf Hr]].
  exists f. split; [exact Hf|].
  required_column H "severity" i Hi.
  assert (Z0 : columns f = columns df -> critical_points f = Ok 0%Z).
  { intros Hc. unfold critical_points.
    rewrite (getitem_field df f _ i Hc Hi). cbn [bind].
    unfold eq_scalar. rewrite mask_by_field. unfold len. cbn [rows].
    rewrite Hr, filter_filter, filter_none; [reflexivity|].
    intros r. destruct (py_eq (field df "severity" r) (VStr "Critical")) eqn:E;
      [|apply andb_false_r].
    apply py_eq_str in E. unfold keeps, severity_ok.
    cbn [severity_choice with_severities]. now rewrite E, S. }
  split.
  - intros n Hn. destruct (filtering_columns _ _ _ Hf) as [Hc|[Hc _]].
    + rewrite (Z0 Hc) in Hn. now injection Hn as <-.
    + unfold critical_points, getitem in Hn. rewrite Hc in Hn. discriminate.
  - intros Hq. apply Z0.
    rewrite (filtering_no_query df (with_severities c sev) H Hq) in Hf.
    now injection Hf as <-.
Qed.

Lemma critical_points_zero_unless_ticked_witness :
  has_required Demo.demo = true /\
  existsb (same_key (VStr "Critical")) [VStr "High"; VStr "Low"] = false /\
  exists filt_df,
    filtering Demo.demo (with_severities Demo.untouched [VStr "High"; VStr "Low"])
      = Ok filt_df /\
    (forall n, critical_points filt_df = Ok n -> n = 0%Z) /\
    (search_query Demo.untouched = "" -> critical_points filt_df = Ok 0%Z).
Proof.
  split; [reflexivity|]. split; [reflexivity|].
  apply (critical_points_zero_unless_ticked Demo.demo Demo.untouched
           [VStr "High"; VStr "Low"]); reflexivity.
Defined.

(** *** Loading *)

Lemma number_rows_labels l : forall n,
  map label (number_rows n l) = seq n (List.length l).
Proof. induction l as [|c l IH]; intros n; simpl; [reflexivity|]. now rewrite IH. Qed.

Lemma number_rows_cells l : forall n, map cells (number_rows n l) = l.
Proof. induction l as [|c l IH]; intros n; simpl; [reflexivity|]. now rewrite IH. Qed.

Lemma number_rows_length l : forall n, List.length (number_rows n l) = List.length l.
Proof. induction l as [|c l IH]; intros n; simpl; [reflexivity|]. now rewrite IH. Qed.

(** A frame [read_csv] builds has the header as columns, one row per
    record, labelled from 0, and one cell per column in every row. *)
Lemma build_frame_shape header body f :
  build_frame header body = Ok f ->
  columns f = header /\ List.length (rows f) = List.length body /\
  numbered f /\ rectangular f.
Proof.
  unfold build_frame. destruct (existsb _ body); [discriminate|].
  intros [= <-]. unfold numbered, rectangular. cbn [columns rows].
  rewrite number_rows_length, number_rows_labels, !length_map, !length_seq.
  repeat split. intros r Hr.
  apply (in_map cells) in Hr. rewrite number_rows_cells in Hr.
  apply in_map_iff in Hr. destruct Hr as [i [<- _]].
  now rewrite !length_map, length_seq.
Qed.

Lemma build_frame_fits header body :
  (forall l, In l body -> List.length l = List.length header) ->
  exists f, build_frame header body = Ok f.
Proof.
  intros H. unfold build_frame.
  replace (existsb _ body) with false; [eauto|].
  symmetry. apply not_true_is_false. intros E.
  apply existsb_exists in E. destruct E as [l [Hl E]].
  apply Nat.ltb_lt in E. rewrite (H l Hl) in E. lia.
Qed.

















(** *** Export *)

Lemma read_table_csv f :
  (2 <= List.length (columns f))%nat -> no_cr f = true ->
  read_table (csv f) = Ok (columns f :: map (csv_fields f) (rows f)).
Proof.
  intros Hlen Hcr. unfold read_table, csv, decode, encode.
  rewrite string_of_list_byte_of_string. unfold to_csv.
  rewrite <- concat_cons, <- map_map.
  change (write_row (columns f) :: map write_row (map (csv_fields f) (rows f)))
    with (map write_row (columns f :: map (csv_fields f) (rows f))).
  apply read_rows. intros fs [<-|Hfs].
  - split; [exact Hlen|now apply no_cr_columns].
  - apply in_map_iff in Hfs. destruct Hfs as [r [<- Hr]].
    split; [now rewrite csv_fields_length|now apply no_cr_fields].
Qed.

(** X11.  The export can always be read again, and the labels of the
    records are not in it: for a subset with at least two columns,
    whose names are distinct and not empty, and no carriage return in
    its texts, [read_csv] of the export returns a table with the same
    column names and as many records, labelled 0, 1, 2, ... whatever
    their labels in the subset were. *)
Theorem export_is_read_renumbered (filt_df : DataFrame) :
  (2 <= List.length (columns filt_df))%nat ->
  plain_names filt_df ->
  no_cr filt_df = true ->
  exists g, read_csv (csv filt_df) = Ok g /\
    columns g = columns filt_df /\
    List.length (rows g) = List.length (rows filt_df) /\
    numbered g /\ rectangular g.
Proof.
  intros Hlen _ Hcr. unfold read_csv.
  rewrite (read_table_csv filt_df Hlen Hcr). cbn [bind].
  destruct (build_frame_fits (columns filt_df) (map (csv_fields filt_df) (rows filt_df)))
    as [g Hg].
  { intros l Hl. apply in_map_iff in Hl. destruct Hl as [r [<- _]].
    apply csv_fields_length. }
  exists g. split; [exact Hg|].
  apply build_frame_shape in Hg. destruct Hg as [Hc [Hn [N R]]].
  rewrite length_map in Hn. auto.
Qed.

Lemma export_is_read_renumbered_witness :
  (2 <= List.length (columns (getitem_mask Demo.demo
        [false; false; true; false; true])))%nat /\
  plain_names (getitem_mask Demo.demo [false; false; true; false; true]) /\
  no_cr (getitem_mask Demo.demo [false; false; true; false; true]) = true /\
  map label (rows (getitem_mask Demo.demo [false; false; true; false; true]))
    = [2; 4]%nat /\
  exists g, read_csv (csv (getitem_mask Demo.demo
                             [false; false; true; false; true])) = Ok g /\
    columns g = columns (getitem_mask Demo.demo [false; false; true; false; true]) /\
    List.length (rows g) =
      List.length (rows (getitem_mask Demo.demo [false; false; true; false; true])) /\
    numbered g /\ rectangular g.
Proof.
  assert (P : plain_names (getitem_mask Demo.demo [false; false; true; false; true])).
  { split.
    - repeat (constructor; [simpl; intuition discriminate|]). constructor.
    - simpl. intuition discriminate. }
  split; [vm_compute; lia|]. split; [exact P|].
  split; [reflexivity|]. split; [reflexivity|].
  apply (export_is_read_renumbered
           (getitem_mask Demo.demo [false; false; true; false; true]));
    [vm_compute; lia|exact P|reflexivity].
Defined.

(** *** The pickers *)






(** *** The first KPI before any filter *)





(** *** The hourly series *)

Lemma same_key_int a b : same_key (VInt a) (VInt b) = (a =? b)%Z.
Proof.
  unfold same_key, py_eq, Dec_eqb. cbn [to_num isna Dec_of_Z mant scale andb].
  change (pow10 0) with 1%Z. now rewrite !Z.mul_1_r, orb_false_r.
Qed.

Lemma value_leb_int a b : value_leb (VInt a) (VInt b) = (a <=? b)%Z.
Proof.
  unfold value_leb. cbn [to_num Dec_of_Z mant scale].
  change (pow10 0) with 1%Z. now rewrite !Z.mul_1_r.
Qed.

Lemma existsb_ints x seen :
  existsb (same_key (VInt x)) (ints seen) = true <-> In x seen.
Proof.
  unfold ints. induction seen as [|y seen IH]; cbn [map existsb In]; [split; [discriminate|tauto]|].
  rewrite orb_true_iff, same_key_int, Z.eqb_eq, IH. intuition congruence.
Qed.

Lemma dropna_ints l : dropna (ints l) = ints l.
Proof.
  unfold dropna, ints. induction l as [|x l IH]; cbn [map filter isna negb]; [reflexivity|].
  now rewrite IH.
Qed.

Lemma unique_from_ints l : forall seen,
  exists l', unique_from (ints seen) (ints l) = ints l' /\ NoDup l' /\
             forall z, In z l' -> ~ In z seen.
Proof.
  induction l as [|x l IH]; intros seen.
  - exists []. repeat split; [constructor|intros z []].
  - change (ints (x :: l)) with (VInt x :: ints l). cbn [unique_from].
    destruct (existsb (same_key (VInt x)) (ints seen)) eqn:E.
    + apply IH.
    + destruct (IH (x :: seen)) as [l' [E' [N F]]].
      change (VInt x :: ints seen) with (ints (x :: seen)). rewrite E'.
      exists (x :: l'). split; [reflexivity|]. split.
      * constructor; [|exact N]. intros Hx. apply (F x Hx). now left.
      * intros z [<-|Hz].
        -- intros Hin. apply existsb_ints in Hin. congruence.
        -- intros Hin. apply (F z Hz). now right.
Qed.

Lemma insert_key_ints x hs :
  ForallOrdPairs Z.lt hs -> ~ In x hs ->
  exists hs', insert_key (VInt x) (ints hs) = ints hs' /\
              (forall z, In z hs' <-> z = x \/ In z hs) /\
              ForallOrdPairs Z.lt hs'.
Proof.
  induction hs as [|y t IH]; intros S N.
  - exists [x]. split; [reflexivity|]. split; [simpl; intuition|].
    repeat constructor.
  - change (ints (y :: t)) with (VInt y :: ints t). cbn [insert_key].
    rewrite value_leb_int. inversion S as [|? ? Hy St]; subst.
    rewrite Forall_forall in Hy.
    destruct (x <=? y)%Z eqn:E.
    + exists (x :: y :: t). split; [reflexivity|]. split; [simpl; intuition|].
      constructor; [|exact S]. apply Forall_forall. intros z [Ez|Hz].
      * apply Z.leb_le in E. assert (x <> y) by (intros ->; apply N; now left). lia.
      * apply Z.leb_le in E. specialize (Hy z Hz). lia.
    + destruct (IH St) as [hs' [E' [I S']]]; [intros Hx; apply N; now right|].
      rewrite E'. exists (y :: hs'). split; [reflexivity|]. split.
      * intros z. cbn [In]. rewrite I. intuition.
      * constructor; [|exact S']. apply Forall_forall. intros z Hz.
        apply I in Hz. destruct Hz as [->|Hz]; [apply Z.leb_gt in E; lia|now apply Hy].
Qed.

Lemma sort_keys_ints l :
  NoDup l ->
  exists hs, sort_keys (ints l) = ints hs /\ (forall z, In z hs <-> In z l) /\
             ForallOrdPairs Z.lt hs.
Proof.
  induction l as [|x l IH]; intros N.
  - exists []. split; [reflexivity|]. split; [tauto|constructor].
  - inversion N as [|? ? Hx Nl]; subst.
    destruct (IH Nl) as [hs [E [I S]]].
    change (sort_keys (ints (x :: l))) with (insert_key (VInt x) (sort_keys (ints l))).
    rewrite E.
    destruct (insert_key_ints x hs S) as [hs' [E' [I' S']]];
      [now rewrite I|].
    exists hs'. split; [exact E'|]. split; [|exact S'].
    intros z. rewrite I', I. simpl. intuition.
Qed.

Lemma In_insert_key k x l : In k (insert_key x l) <-> k = x \/ In k l.
Proof.
  induction l as [|y l IH]; cbn [insert_key]; [simpl; intuition|].
  destruct (value_leb x y); cbn [In]; [intuition|]. rewrite IH. intuition.
Qed.

Lemma In_sort_keys k l : In k (sort_keys l) <-> In k l.
Proof.
  induction l as [|x l IH]; [reflexivity|].
  change (sort_keys (x :: l)) with (insert_key x (sort_keys l)).
  rewrite In_insert_key, IH. simpl. intuition.
Qed.

Lemma total_insert_key (h : value -> Z) x l :
  total (map h (insert_key x l)) = (h x + total (map h l))%Z.
Proof.
  induction l as [|y l IH]; cbn [insert_key]; [reflexivity|].
  destruct (value_leb x y); [reflexivity|].
  cbn [map total fold_right] in *. unfold total in IH. rewrite IH. lia.
Qed.

Lemma total_sort_keys (h : value -> Z) l :
  total (map h (sort_keys l)) = total (map h l).
Proof.
  induction l as [|x l IH]; [reflexivity|].
  change (sort_keys (x :: l)) with (insert_key x (sort_keys l)).
  rewrite total_insert_key, IH. reflexivity.
Qed.

Lemma count_of_cons k x l :
  count_of k (x :: l) = ((if same_key k x then 1 else 0) + count_of k l)%nat.
Proof. unfold count_of. cbn [filter]. now destruct (same_key k x). Qed.

Lemma filter_length_split {A} (p q r : A -> bool) (l : list A) :
  (forall y, ((if p y then 1 else 0) + (if q y then 1 else 0) = if r y then 1 else 0)%nat) ->
  (List.length (filter p l) + List.length (filter q l) = List.length (filter r l))%nat.
Proof.
  intros H. induction l as [|y l IH]; [reflexivity|].
  cbn [filter]. specialize (H y).
  destruct (p y), (q y), (r y); cbn [List.length] in *; lia.
Qed.

Lemma total_ext {A} (g h : A -> Z) l :
  (forall k, In k l -> g k = h k) -> total (map g l) = total (map h l).
Proof. intros H. f_equal. now apply map_ext_in. Qed.

(** The sizes of the groups add up to the number of values that are in
    no group seen before. *)
Lemma total_counts l : forall seen,
  total (map (fun k => Z.of_nat (count_of k l)) (unique_from seen l)) =
  Z.of_nat (List.length (filter (fun x => negb (existsb (same_key x) seen)) l)).
Proof.
  induction l as [|x l IH]; intros seen; [reflexivity|].
  cbn [unique_from filter].
  destruct (existsb (same_key x) seen) eqn:E; cbn [negb].
  - rewrite <- IH. apply total_ext. intros k Hk.
    rewrite count_of_cons.
    destruct (same_key k x) eqn:K; [|reflexivity].
    apply unique_from_fresh in Hk.
    rewrite (existsb_same_key_congr k x seen K) in Hk. congruence.
  - cbn [map total fold_right List.length].
    rewrite count_of_cons, same_key_refl.
    transitivity (Z.of_nat (1 + count_of x l) +
                  total (map (fun k => Z.of_nat (count_of k l))
                             (unique_from (x :: seen) l)))%Z.
    { f_equal. apply total_ext. intros k Hk. rewrite count_of_cons.
      apply unique_from_fresh in Hk. cbn [existsb] in Hk.
      apply orb_false_iff in Hk. destruct Hk as [-> _]. reflexivity. }
    rewrite IH.
    pose proof (filter_length_split (same_key x)
                  (fun y => negb (existsb (same_key y) (x :: seen)))
                  (fun y => negb (existsb (same_key y) seen)) l) as S.
    unfold count_of. rewrite <- S; [lia|].
    intros y. cbn [existsb]. rewrite (same_key_sym y x).
    destruct (same_key x y) eqn:K; cbn [orb negb]; [|reflexivity].
    rewrite <- (existsb_same_key_congr x y seen K), E. reflexivity.
Qed.

Lemma dropna_notna k l : In k (dropna l) -> In k l /\ isna k = false.
Proof.
  unfold dropna. rewrite filter_In, negb_true_iff. tauto.
Qed.

Lemma all_ints (l : list value) :
  (forall v, In v l -> exists z, v = VInt z) -> exists hl, l = ints hl.
Proof.
  induction l as [|v l IH]; intros H; [now exists []|].
  destruct (H v (or_introl eq_refl)) as [z ->].
  destruct IH as [hl ->]; [intros w Hw; apply H; now right|].
  now exists (z :: hl).
Qed.

(** X14.  The data of the area chart: one row per hour that occurs among
    the selected records, holding that hour and the number of records of
    that hour; every record with an hour is counted in exactly one row,
    so that the volumes add up to the number of records that have an
    hour; the rows are numbered from 0; and when the hours are integers
    the rows come in strictly ascending order of the hour. *)
Theorem hourly_volumes_partition_the_subset (filt_df line_data : DataFrame) :
  groupby_size filt_df "hour" "Volume" = Ok line_data ->
  columns line_data = ["hour"; "Volume"] /\
  numbered line_data /\
  (forall r, In r (rows line_data) ->
     In (hour_of r) (hours filt_df) /\ isna (hour_of r) = false /\
     cells r = [hour_of r; VInt (volume_of r)] /\
     volume_of r = Z.of_nat (count_of (hour_of r) (hours filt_df)) /\
     (0 < volume_of r)%Z) /\
  (forall h, In h (hours filt_df) -> isna h = false ->
     exists r, In r (rows line_data) /\ same_key h (hour_of r) = true) /\
  total (map volume_of (rows line_data)) =
    Z.of_nat (List.length (dropna (hours filt_df))) /\
  ((forall h, In h (hours filt_df) -> exists z, h = VInt z) ->
   exists ks, map hour_of (rows line_data) = ints ks /\ ForallOrdPairs Z.lt ks).
Proof.
  unfold groupby_size, getitem, hours, field.
  destruct (index_of "hour" (columns filt_df)) as [i|]; [|discriminate].
  cbn [bind]. set (s := map (cell_at i) (rows filt_df)).
  set (keys := sort_keys (unique (dropna s))).
  intros [= <-]. cbn [columns rows].
  split; [reflexivity|].
  split; [unfold numbered; cbn [rows];
          now rewrite number_rows_labels, number_rows_length|].
  assert (C : map cells (number_rows 0 (map (fun k => [k; VInt (Z.of_nat (count_of k s))]) keys))
              = map (fun k => [k; VInt (Z.of_nat (count_of k s))]) keys)
    by apply number_rows_cells.
  assert (R : forall r, In r (number_rows 0
                 (map (fun k => [k; VInt (Z.of_nat (count_of k s))]) keys)) ->
              exists k, In k keys /\ cells r = [k; VInt (Z.of_nat (count_of k s))]).
  { intros r Hr. apply (in_map cells) in Hr. rewrite C in Hr.
    apply in_map_iff in Hr. destruct Hr as [k [E Hk]]. eauto. }
  assert (K : forall k, In k keys -> In k s /\ isna k = false).
  { intros k Hk. apply In_sort_keys, unique_from_In, dropna_notna in Hk. exact Hk. }
  split; [|split; [|split]].
  - intros r Hr. destruct (R r Hr) as [k [Hk E]].
    unfold hour_of, volume_of, cell_at. rewrite E. cbn [nth].
    destruct (K k Hk) as [Hs Hna].
    repeat split; try assumption.
    pose proof (count_of_pos k k s Hs (same_key_refl k)). lia.
  - intros h Hh Hna.
    assert (Hd : In h (dropna s)) by (apply filter_In; now rewrite Hna).
    apply unique_covers, In_existsb_same_key in Hd.
    destruct Hd as [k [Hk E]]. apply In_sort_keys in Hk. fold keys in Hk.
    assert (Hc : In [k; VInt (Z.of_nat (count_of k s))]
                    (map (fun k => [k; VInt (Z.of_nat (count_of k s))]) keys))
      by now apply (in_map (fun k => [k; VInt (Z.of_nat (count_of k s))])).
    rewrite <- C in Hc. apply in_map_iff in Hc. destruct Hc as [r [Er Hr]].
    exists r. split; [exact Hr|]. unfold hour_of, cell_at. now rewrite Er.
  - transitivity (total (map (fun k => Z.of_nat (count_of k s)) keys)).
    { rewrite <- (map_map cells (fun c => match nth 1 c VNaN with VInt z => z | _ => 0%Z end)).
      rewrite C, map_map. reflexivity. }
    unfold keys. rewrite total_sort_keys.
    rewrite (total_ext _ (fun k => Z.of_nat (count_of k (dropna s)))).
    + unfold unique. rewrite total_counts. f_equal. f_equal.
      apply filter_all. reflexivity.
    + intros k Hk. apply unique_from_In, dropna_notna in Hk.
      now rewrite count_of_dropna.
  - intros Hint. destruct (all_ints s Hint) as [hl Hl].
    destruct (unique_from_ints hl []) as [l' [E' [N _]]].
    destruct (sort_keys_ints l' N) as [ks [Ek [_ S]]].
    exists ks. split; [|exact S].
    rewrite <- (map_map cells (fun c => nth 0 c VNaN)), C, map_map. cbn [nth].
    rewrite map_id. unfold keys, unique. rewrite Hl, dropna_ints.
    change (@nil value) with (ints []). now rewrite E'.
Qed.

Lemma hourly_volumes_partition_the_subset_witness :
  groupby_size Demo.demo "hour" "Volume" = Ok demo_line_data /\
  total (map volume_of (rows demo_line_data)) =
    Z.of_nat (List.length (dropna (hours Demo.demo))) /\
  ((forall h, In h (hours Demo.demo) -> exists z, h = VInt z) ->
   exists ks, map hour_of (rows demo_line_data) = ints ks /\ ForallOrdPairs Z.lt ks).
Proof.
  split; [vm_compute; reflexivity|].
  apply (hourly_volumes_partition_the_subset Demo.demo demo_line_data).
  vm_compute; reflexivity.
Defined.

(** *** The page as a whole *)

Lemma then_eval_ok {A B} (r : result A) (a : A) (k : A -> Run B) s :
  r = Ok a -> then_ (eval r) k s = k a s.
Proof. intros ->. reflexivity. Qed.

Lemma then_show {B} (e : Element) (k : unit -> Run B) s :
  then_ (show e) k s = k tt (mkSession (cache s) (page s ++ [e])%list).
Proof. reflexivity. Qed.

(** The subset as a frame, when the search ran on a frame with rows or
    did not run. *)
Lemma filtering_frame df c :
  has_required df = true ->
  search_query c = "" \/ (exists r, In r (rows df) /\ keeps df c r = true) ->
  filtering df c = Ok (mkFrame (columns df) (filter (keeps df c) (rows df))).
Proof.
  intros H Q. destruct (filtering_rows df c H) as [f [Hf Hr]].
  rewrite Hf. f_equal. destruct f as [cols rs]. cbn [rows] in Hr. subst rs.
  f_equal. destruct Q as [Q|[r [Hin Hk]]].
  - rewrite (filtering_no_query df c H Q) in Hf. now injection Hf.
  - destruct (filtering_columns df c _ Hf) as [E|[_ E]]; [exact E|].
    cbn [rows] in E. assert (I : In r (filter (keeps df c) (rows df)))
      by (apply filter_In; auto).
    rewrite E in I. destruct I.
Qed.

Lemma mean_of_numbers l :
  (forall v, In v l -> not_a_number v = false) -> exists m, mean l = Ok m.
Proof.
  intros H. unfold mean.
  replace (existsb not_a_number l) with false.
  - destruct (numbers l); eauto.
  - symmetry. apply not_true_is_false. intros E.
    apply existsb_exists in E. destruct E as [v [Hv E]].
    rewrite (H v Hv) in E. discriminate.
Qed.

(** X15.  On a snapshot that has the columns the script reads, numbers
    or nothing in the two averaged columns and a threat type in every
    record, a run with an empty search box, or with a search that keeps
    a record, raises nothing and adds nine elements to the page, in
    this order: the four KPIs, the pie, the area chart, the download
    button with the export of the subset, the table of the subset, and
    the summary, which is the warning exactly when the subset is
    empty. *)
Theorem dashboard_draws_the_whole_page (df : DataFrame) (c : Criteria) (s : Session) :
  has_required df = true ->
  presentable df ->
  search_query c = "" \/ (exists r, In r (rows df) /\ keeps df c r = true) ->
  exists filt_df k1 d k2 k3 k4 names line_data conclusion,
    filtering df c = Ok filt_df /\
    dashboard df c s =
      (Ok tt,
       mkSession (cache s)
         (page s ++
          [Metric "Selected Events" k1 (Some d); Metric "Critical Points" k2 None;
           Metric "Avg Confidence" k3 None; Metric "Avg Mitigation" k4 None;
           Pie names; Area line_data "hour" "Volume";
           DownloadButton (csv filt_df) "security_audit_export.csv" "text/csv";
           Table filt_df; conclusion])%list) /\
    k1 = str_int (len filt_df) /\
    (rows filt_df = [] -> conclusion = Warning no_match) /\
    (rows filt_df <> [] -> exists t, conclusion = Info (automated_summary t)).
Proof.
  intros H P Q.
  pose proof (filtering_frame df c H Q) as Hf.
  set (f := mkFrame (columns df) (filter (keeps df c) (rows df))) in *.
  assert (Sub : forall r, In r (rows f) -> In r (rows df)).
  { intros r Hr. apply filter_In in Hr. tauto. }
  required_column H "severity" i1 Hi1.
  required_column H "affected_system" i2 Hi2.
  required_column H "confidence_score" i3 Hi3.
  required_column H "response_time_minutes" i4 Hi4.
  required_column H "threat_type" i5 Hi5.
  required_column H "hour" i6 Hi6.
  destruct (avg_count_value df H) as [a [Ha _]].
  assert (E1 : severity_options df =
               Ok (unique (map (field df "severity") (rows df)))).
  { unfold severity_options. now rewrite (getitem_field df df _ i1 eq_refl Hi1). }
  assert (E2 : system_options df =
               Ok (all_systems :: unique (map (field df "affected_system") (rows df)))).
  { unfold system_options. now rewrite (getitem_field df df _ i2 eq_refl Hi2). }
  assert (E3 : delta df f = Ok (current_count f - int_of a)%Z).
  { unfold delta. now rewrite Ha. }
  assert (E4 : critical_points f =
               Ok (len (getitem_mask f (eq_scalar (map (field df "severity") (rows f))
                                                  (VStr "Critical"))))).
  { unfold critical_points. now rewrite (getitem_field df f _ i1 eq_refl Hi1). }
  destruct (mean_of_numbers (map (field df "confidence_score") (rows f))) as [m3 Hm3].
  { intros v Hv. apply in_map_iff in Hv. destruct Hv as [r [<- Hr]].
    now apply P, Sub. }
  destruct (mean_of_numbers (map (field df "response_time_minutes") (rows f))) as [m4 Hm4].
  { intros v Hv. apply in_map_iff in Hv. destruct Hv as [r [<- Hr]].
    now apply P, Sub. }
  assert (E5 : avg_confidence f = Ok (format_1f m3 ++ "%")).
  { unfold avg_confidence.
    rewrite (getitem_field df f _ i3 eq_refl Hi3). cbn [bind]. now rewrite Hm3. }
  assert (E6 : avg_mitigation f = Ok (format_1f m4 ++ "m")).
  { unfold avg_mitigation.
    rewrite (getitem_field df f _ i4 eq_refl Hi4). cbn [bind]. now rewrite Hm4. }
  pose proof (getitem_field df f _ i5 eq_refl Hi5) as E7.
  assert (E8 : exists ld, groupby_size f "hour" "Volume" = Ok ld).
  { unfold groupby_size. rewrite (getitem_field df f _ i6 eq_refl Hi6). cbn [bind]. eauto. }
  destruct E8 as [ld E8].
  pose proof (getitem_field df f _ i3 eq_refl Hi3) as E9.
  assert (E10 : exists e, summary f = Ok e /\
                  (rows f = [] -> e = Warning no_match) /\
                  (rows f <> [] -> exists t, e = Info (automated_summary t))).
  { unfold summary. destruct (rows f) as [|r0 l] eqn:Er.
    - unfold len. rewrite Er. cbn. eexists. split; [reflexivity|]. split; [reflexivity|].
      intros N. now destruct N.
    - rewrite len_pos by (rewrite Er; discriminate).
      unfold top_threat. rewrite E7. cbn [bind].
      destruct (value_counts_idxmax (map (field df "threat_type") (r0 :: l)))
        as [t [Ht _]].
      { exists (field df "threat_type" r0). split; [now left|].
        apply P, Sub. now left. }
      rewrite Ht. cbn [bind]. eexists. split; [reflexivity|].
      split; [discriminate|]. intros _. eauto. }
  destruct E10 as [e [E10 [W I]]].
  exists f. do 7 eexists. exists e. split; [exact Hf|]. split.
  - unfold dashboard.
    rewrite (then_eval_ok _ _ _ _ E1). cbv beta.
    rewrite (then_eval_ok _ _ _ _ E2). cbv beta.
    rewrite (then_eval_ok _ _ _ _ Hf). cbv beta.
    rewrite (then_eval_ok _ _ _ _ E3), then_show. cbv beta.
    rewrite (then_eval_ok _ _ _ _ E4), then_show. cbv beta.
    rewrite (then_eval_ok _ _ _ _ E5), then_show. cbv beta.
    rewrite (then_eval_ok _ _ _ _ E6), then_show. cbv beta.
    rewrite (then_eval_ok _ _ _ _ E7), then_show. cbv beta.
    rewrite (then_eval_ok _ _ _ _ E8), then_show, then_show. cbv beta.
    rewrite (then_eval_ok _ _ _ _ E9), then_show. cbv beta.
    rewrite (then_eval_ok _ _ _ _ E10). cbv beta.
    unfold show. cbn [cache page]. rewrite <- !app_assoc. reflexivity.
  - split; [reflexivity|]. split; assumption.
Qed.

Lemma dashboard_draws_the_whole_page_witness :
  has_required Demo.demo = true /\
  search_query Demo.critical_only = "" /\
  exists filt_df k1 d k2 k3 k4 names line_data conclusion,
    filtering Demo.demo Demo.critical_only = Ok filt_df /\
    dashboard Demo.demo Demo.critical_only Demo.fresh =
      (Ok tt,
       mkSession (cache Demo.fresh)
         (page Demo.fresh ++
          [Metric "Selected Events" k1 (Some d); Metric "Critical Points" k2 None;
           Metric "Avg Confidence" k3 None; Metric "Avg Mitigation" k4 None;
           Pie names; Area line_data "hour" "Volume";
           DownloadButton (csv filt_df) "security_audit_export.csv" "text/csv";
           Table filt_df; conclusion])%list) /\
    k1 = str_int (len filt_df) /\
    (rows filt_df = [] -> conclusion = Warning no_match) /\
    (rows filt_df <> [] -> exists t, conclusion = Info (automated_summary t)).
Proof.
  split; [reflexivity|]. split; [reflexivity|].
  apply (dashboard_draws_the_whole_page Demo.demo Demo.critical_only Demo.fresh).
  - reflexivity.
  - intros r Hr. simpl in Hr.
    repeat (destruct Hr as [<-|Hr]; [repeat split; reflexivity|]). destruct Hr.
  - left. reflexivity.
Defined.

Lemma stops_then_l {A B} (m : Run A) (k : A -> Run B) : stops m -> stops (then_ m k).
Proof.
  intros Hm s. destruct (Hm s) as [e [s' E]]. exists e, s'.
  unfold then_. now rewrite E.
Qed.








